(** * gcs_to_bq_util: moving tables between object storage and the warehouse

    A shallow embedding of [python/ingestion/gcs_to_bq_util.py] and the
    properties of its three operations: [append_dataframe_to_bq],
    [load_values_as_dataframe] and [load_csv_as_dataframe].

    The module is glue around four collaborators (the json module, pandas,
    the object-storage client and the warehouse client).  The functions of
    the module are embedded line by line in a state-and-exception monad over
    an explicit world; the collaborators are an interface ([Collaborators]),
    so that whatever is proved about the module's own control flow holds for
    every behaviour of the libraries.  A reference implementation of the
    interface ([Reference]) is given for the statements that are about
    concrete documents. *)

From Stdlib Require Import Ascii String QArith Qcanon.
From stdpp Require Import base numbers strings pretty list gmap.

Local Open Scope string_scope.
Local Open Scope list_scope.
Local Open Scope nat_scope.

(** ** Python values *)

(** The values that reach the module: what [json.load] produces, what a
    DataFrame cell holds.  A float is represented by the rational number
    it denotes; only its identity is ever used. *)
#[local] Unset Elimination Schemes.
Inductive pyval : Type :=
  | PNone
  | PBool (b : bool)
  | PInt (z : Z)
  | PFloat (x : Qc)
  | PStr (s : string)
  | PList (l : list pyval)
  | PDict (d : list (string * pyval)).
#[local] Set Elimination Schemes.

(** Exceptions, by the name of their Python class. *)
Inductive exn : Type :=
  | Exception_ (msg : string)
  | ValueError (msg : string)
  | IndexError
  | KeyError
  | TypeError
  | AttributeError
  | JSONDecodeError
  | FileNotFoundError
  | ParserError
  | EmptyDataError
  | DefaultCredentialsError
  | NotFound
  | LoadJobError (detail : string)
  | NotModelled (what : string).

Inductive result (A : Type) : Type :=
  | Ok (a : A)
  | Raise (e : exn).
Arguments Ok {A} a.
Arguments Raise {A} e.

#[export] Instance result_ret : MRet result := @Ok.
#[export] Instance result_bind : MBind result :=
  λ A B f r, match r with Ok a => f a | Raise e => Raise e end.

Fixpoint map_result {A B : Type} (f : A → result B) (l : list A)
  : result (list B) :=
  match l with
  | [] => Ok []
  | a :: l' => b ← f a; bs ← map_result f l'; Ok (b :: bs)
  end.

(** ** Dictionaries

    A Python [dict] keeps its keys in insertion order, and the order of
    [columns.keys()] is the order of the emitted schema: a dictionary is an
    association list.  Its keys are pairwise distinct ([dict_wf]). *)
Definition dict (V : Type) : Type := list (string * V).

Definition dict_keys {V : Type} (d : dict V) : list string := d.*1.

Definition dict_wf {V : Type} (d : dict V) : Prop := NoDup (dict_keys d).

Fixpoint dict_get {V : Type} (k : string) (d : dict V) : option V :=
  match d with
  | [] => None
  | (k', v) :: d' => if decide (k' = k) then Some v else dict_get k d'
  end.

(** [d[k] = v]: an existing key keeps its position, a new one goes last. *)
Fixpoint dict_set {V : Type} (k : string) (v : V) (d : dict V) : dict V :=
  match d with
  | [] => [(k, v)]
  | (k', v') :: d' =>
      if decide (k' = k) then (k, v) :: d' else (k', v') :: dict_set k v d'
  end.

Definition dict_contains {V : Type} (k : string) (d : dict V) : bool :=
  bool_decide (k ∈ dict_keys d).

(** [d[k]] as an expression. *)
Definition dict_getitem {V : Type} (d : dict V) (k : string) : result V :=
  match dict_get k d with
  | Some v => Ok v
  | None => Raise KeyError
  end.

Definition dict_copy {V : Type} (d : dict V) : dict V := d.

(** ** DataFrames

    A DataFrame is a row index and a list of labelled columns, each column
    holding one cell per row. *)
Record DataFrame : Type := mkFrame {
  nrows : nat;
  cols : list (string * list pyval)
}.

(** [frame.columns] *)
Definition frame_columns (f : DataFrame) : list string := (cols f).*1.

(** [len(frame)] *)
Definition frame_len (f : DataFrame) : nat := nrows f.

(** [frame[c] = v] for a scalar [v]: every column labelled [c] is filled
    with [v]; when there is none, a new last column is added. *)
Definition frame_setitem (c : string) (v : pyval) (f : DataFrame) : DataFrame :=
  let cells := replicate (nrows f) v in
  {| nrows := nrows f;
     cols :=
       if bool_decide (c ∈ frame_columns f)
       then (λ nc : string * list pyval,
               if decide (nc.1 = c) then (nc.1, cells) else nc) <$> cols f
       else cols f ++ [(c, cells)] |}.

(** A row as a record: column label to cell. *)
Definition record : Type := dict pyval.

Definition frame_record (f : DataFrame) (i : nat) : record :=
  (λ nc : string * list pyval, (nc.1, default PNone (nc.2 !! i))) <$> cols f.

(** The rows of the frame in index order, as tuples of cells. *)
Definition frame_rows (f : DataFrame) : list (list pyval) :=
  (λ i, (frame_record f i).*2) <$> seq 0 (nrows f).

(** [json.loads(frame.to_json(orient='records'))]: one record per row, in
    row order.  pandas refuses this orientation when labels repeat. *)
Definition to_json_records (f : DataFrame) : result (list record) :=
  if bool_decide (NoDup (frame_columns f))
  then Ok (frame_record f <$> seq 0 (nrows f))
  else Raise (ValueError "DataFrame columns must be unique for orient='records'.").

(** ** The warehouse interface *)

Inductive WriteDisposition : Type :=
  | WRITE_APPEND
  | WRITE_TRUNCATE
  | WRITE_EMPTY.

(** [bigquery.SchemaField(name, field_type, mode=...)] *)
Record SchemaField : Type := mkField {
  field_name : string;
  field_type : string;
  field_mode : string
}.

(** [bigquery.LoadJobConfig()]: nothing is set on a new configuration. *)
Record LoadJobConfig : Type := mkConfig {
  write_disposition : option WriteDisposition;
  schema : option (list SchemaField)
}.

Definition LoadJobConfig_new : LoadJobConfig :=
  {| write_disposition := None; schema := None |}.

Definition set_write_disposition (d : WriteDisposition) (c : LoadJobConfig)
  : LoadJobConfig :=
  {| write_disposition := Some d; schema := schema c |}.

Definition set_schema (s : list SchemaField) (c : LoadJobConfig)
  : LoadJobConfig :=
  {| write_disposition := write_disposition c; schema := Some s |}.

(** What [client.load_table_from_json(rows, dataset.table, job_config)]
    sends. *)
Record LoadJob : Type := mkJob {
  job_rows : list record;
  job_dataset : string;
  job_table : string;
  job_config : LoadJobConfig
}.

Definition job_destination (j : LoadJob) : string * string :=
  (job_dataset j, job_table j).

(** The warehouse: the rows of each table, oldest first. *)
Abbreviation warehouse := (gmap (string * string) (list record)).

Definition table_rows (tables : warehouse) (dest : string * string)
  : list record :=
  default [] (tables !! dest).

(** What an accepted load job does to the warehouse, by its write
    disposition (a load job without one appends). *)
Definition commit (j : LoadJob) (tables : warehouse) : result warehouse :=
  let dest := job_destination j in
  let old := table_rows tables dest in
  match default WRITE_APPEND (write_disposition (job_config j)) with
  | WRITE_APPEND => Ok (<[dest := old ++ job_rows j]> tables)
  | WRITE_TRUNCATE => Ok (<[dest := job_rows j]> tables)
  | WRITE_EMPTY =>
      match old with
      | [] => Ok (<[dest := job_rows j]> tables)
      | _ :: _ => Raise (LoadJobError "Already Exists")
      end
  end.

(** ** The world *)

(** Calls that leave the process. *)
Inductive event : Type :=
  | StorageClient
  | GetBucket (bucket : string)
  | DownloadBlob (bucket blob path : string)
  | BigqueryClient
  | LoadTableFromJson (j : LoadJob).

Definition loc : Type := nat.

Record World : Type := mkWorld {
  credentials : bool;                      (* ambient default credentials *)
  gcs : gmap string (gmap string string);  (* bucket, object name, contents *)
  fs : gmap string string;                 (* local path, contents *)
  clock : Qc;                              (* what time.time() reads *)
  frames : gmap loc DataFrame;             (* DataFrame objects, by identity *)
  bq : warehouse;
  trace : list event                       (* remote calls, oldest first *)
}.

Definition with_fs (x : gmap string string) (w : World) : World :=
  mkWorld (credentials w) (gcs w) x (clock w) (frames w) (bq w) (trace w).
Definition with_clock (x : Qc) (w : World) : World :=
  mkWorld (credentials w) (gcs w) (fs w) x (frames w) (bq w) (trace w).
Definition with_frames (x : gmap loc DataFrame) (w : World) : World :=
  mkWorld (credentials w) (gcs w) (fs w) (clock w) x (bq w) (trace w).
Definition with_bq (x : warehouse) (w : World) : World :=
  mkWorld (credentials w) (gcs w) (fs w) (clock w) (frames w) x (trace w).
Definition log (e : event) (w : World) : World :=
  mkWorld (credentials w) (gcs w) (fs w) (clock w) (frames w) (bq w)
          (trace w ++ [e]).

(** State and exceptions: an exception keeps the effects made so far. *)
Definition M (A : Type) : Type := World → result A * World.

#[export] Instance M_ret : MRet M := λ A a w, (Ok a, w).
#[export] Instance M_bind : MBind M :=
  λ A B f m w,
    match m w with
    | (Ok a, w') => f a w'
    | (Raise e, w') => (Raise e, w')
    end.

Definition raise {A : Type} (e : exn) : M A := λ w, (Raise e, w).
Definition lift {A : Type} (r : result A) : M A := λ w, (r, w).
Definition modify (g : World → World) : M unit := λ w, (Ok (), g w).

(** The remote calls of a run: the events of [w'] after those of [w]. *)
Definition new_events (w w' : World) : list event :=
  drop (length (trace w)) (trace w').

Definition submitted_job (e : event) : option LoadJob :=
  match e with
  | LoadTableFromJson j => Some j
  | _ => None
  end.

Definition submitted_jobs (es : list event) : list LoadJob :=
  omap submitted_job es.

(** ** The primitives the module calls *)

(** [storage.Client()] *)
Definition storage_Client : M unit :=
  λ w, if credentials w then (Ok (), log StorageClient w)
       else (Raise DefaultCredentialsError, w).

(** [client.get_bucket(name)] *)
Definition get_bucket (name : string) : M string :=
  λ w, match gcs w !! name with
       | Some _ => (Ok name, log (GetBucket name) w)
       | None => (Raise NotFound, log (GetBucket name) w)
       end.

(** [bucket.blob(blob).download_to_filename(path)]: the local file is
    opened for writing, then filled with the object's contents. *)
Definition download_to_filename (bucket blob path : string) : M unit :=
  λ w, let w1 := log (DownloadBlob bucket blob path)
                     (with_fs (<[path := ""]> (fs w)) w) in
       match gcs w !! bucket ≫= (.!! blob) with
       | Some contents => (Ok (), with_fs (<[path := contents]> (fs w1)) w1)
       | None => (Raise NotFound, w1)
       end.

(** [open(path)] and reading it whole *)
Definition open_read (path : string) : M string :=
  λ w, match fs w !! path with
       | Some text => (Ok text, w)
       | None => (Raise FileNotFoundError, w)
       end.

(** [os.remove(path)] *)
Definition os_remove (path : string) : M unit :=
  λ w, match fs w !! path with
       | Some _ => (Ok (), with_fs (delete path (fs w)) w)
       | None => (Raise FileNotFoundError, w)
       end.

(** [time.time()] *)
Definition time_time : M Qc := λ w, (Ok (clock w), w).

(** Reading the DataFrame a reference denotes. *)
Definition get_frame (l : loc) : M DataFrame :=
  λ w, match frames w !! l with
       | Some f => (Ok f, w)
       | None => (Raise (NotModelled "dangling reference"), w)
       end.

(** [frame[c] = v] on the object itself. *)
Definition setitem (l : loc) (c : string) (v : pyval) : M unit :=
  f ← get_frame l;
  modify (λ w, with_frames (<[l := frame_setitem c v f]> (frames w)) w).

(** [bigquery.Client()] *)
Definition bigquery_Client : M unit :=
  λ w, if credentials w then (Ok (), log BigqueryClient w)
       else (Raise DefaultCredentialsError, w).

(** [client.load_table_from_json(rows, dataset.table(name), job_config)] *)
Definition load_table_from_json (rows : list record) (dataset table : string)
    (config : LoadJobConfig) : M LoadJob :=
  let j := mkJob rows dataset table config in
  λ w, (Ok j, log (LoadTableFromJson j) w).

(** ** The libraries

    [json_load]: [json.load] on the text of a file.
    [from_records]: [DataFrame.from_records(records, columns=col_names)].
    [read_csv]: [pandas.read_csv] on the text of a file, with its [dtype].
    [load_job_verdict]: the warehouse's reason to refuse a job, if any. *)
Inductive dtype : Type :=
  | dtype_str
  | dtype_int.

Class Collaborators : Type := {
  json_load : string → result pyval;
  from_records : pyval → pyval → result DataFrame;
  read_csv : string → option (dict dtype) → result DataFrame;
  load_job_verdict : warehouse → LoadJob → option string
}.

(** [data[0]] *)
Definition py_getitem0 (data : pyval) : result pyval :=
  match data with
  | PList (x :: _) => Ok x
  | PList [] => Raise IndexError
  | PStr (String c _) => Ok (PStr (String c ""))
  | PStr "" => Raise IndexError
  | PDict _ => Raise KeyError
  | PNone | PBool _ | PInt _ | PFloat _ => Raise TypeError
  end.

(** [data[1:]] *)
Definition py_slice1 (data : pyval) : result pyval :=
  match data with
  | PList l => Ok (PList (drop 1 l))
  | PStr (String _ s) => Ok (PStr s)
  | PStr "" => Ok (PStr "")
  | PDict _ | PNone | PBool _ | PInt _ | PFloat _ => Raise TypeError
  end.

(** [x.copy()]: lists and dictionaries have it. *)
Definition py_copy (x : pyval) : result pyval :=
  match x with
  | PList _ | PDict _ => Ok x
  | PNone | PBool _ | PInt _ | PFloat _ | PStr _ => Raise AttributeError
  end.

(** ** The module *)

Section Module.
Context `{Collaborators}.

(** [load_job.result()]: waits for the job; a refused job raises, an
    accepted one is committed. *)
Definition load_job_result (j : LoadJob) : M unit :=
  λ w, match load_job_verdict (bq w) j with
       | Some detail => (Raise (LoadJobError detail), w)
       | None =>
           match commit j (bq w) with
           | Ok tables => (Ok (), with_bq tables w)
           | Raise e => (Raise e, w)
           end
       end.

Definition local_file_path (filename : string) : string :=
  "/tmp/" +:+ filename.

(** [Exception('Column types did not match frame columns')] *)
Definition SchemaMismatch : exn :=
  Exception_ "Column types did not match frame columns".

(** The inner function [create_field] of [append_dataframe_to_bq], with
    the two dictionaries it closes over. *)
Definition create_field (columns col_modes : dict string) (col : string)
  : result SchemaField :=
  ty ← dict_getitem columns col;
  mode ← (if dict_contains col col_modes
          then dict_getitem col_modes col else Ok "NULLABLE");
  Ok (mkField col ty mode).

Definition append_dataframe_to_bq (frame : loc) (column_types : dict string)
    (dataset table_name : string) (col_modes : option (dict string))
  : M unit :=
  let col_modes := default [] col_modes in
  f ← get_frame frame;
  let input_cols := dict_keys column_types in
  if negb (length input_cols =? length (frame_columns f))%nat
     || negb (bool_decide (list_to_set input_cols
                           =@{gset string} list_to_set (frame_columns f)))
  then raise SchemaMismatch
  else
    let columns := dict_set "ingestion_time" "TIMESTAMP"
                            (dict_copy column_types) in
    ingestion_time ← time_time;
    setitem frame "ingestion_time" (PFloat ingestion_time);;
    bigquery_Client;;
    let dataset_ref := dataset in
    let job_config := LoadJobConfig_new in
    let job_config := set_write_disposition WRITE_APPEND job_config in
    schema ← lift (map_result (create_field columns col_modes)
                              (dict_keys columns));
    let job_config := set_schema schema job_config in
    f' ← get_frame frame;
    json_data ← lift (to_json_records f');
    load_job ← load_table_from_json json_data dataset_ref table_name job_config;
    load_job_result load_job.

Definition load_values_as_dataframe (gcs_bucket filename : string)
  : M DataFrame :=
  storage_Client;;
  bucket ← get_bucket gcs_bucket;
  let local_path := local_file_path filename in
  download_to_filename bucket filename local_path;;
  json_file ← open_read local_path;
  data ← lift (json_load json_file);
  col_names ← lift (py_getitem0 data ≫= py_copy);
  records ← lift (py_slice1 data ≫= py_copy);
  frame ← lift (from_records records col_names);
  os_remove local_path;;
  mret frame.

Definition load_csv_as_dataframe (gcs_bucket filename : string)
    (dtype : option (dict dtype)) : M DataFrame :=
  storage_Client;;
  bucket ← get_bucket gcs_bucket;
  let local_path := local_file_path filename in
  download_to_filename bucket filename local_path;;
  text ← open_read local_path;
  lift (read_csv text dtype).

(** *** Vocabulary of the statements *)

(** The table the body of the [with] block builds from the staged text. *)
Definition table_of_values (data : pyval) : result DataFrame :=
  col_names ← py_getitem0 data ≫= py_copy;
  records ← py_slice1 data ≫= py_copy;
  from_records records col_names.

Definition parse_values (text : string) : result DataFrame :=
  json_load text ≫= table_of_values.

End Module.

(** ** A reference implementation of the libraries

    Executable models of the library calls, each on a stated fragment of
    its inputs; outside the fragment the model answers [NotModelled]. *)
Module Reference.

Local Open Scope char_scope.

(** *** json.load

    Covered: null, true, false, integers, strings with the two-character
    escapes, arrays and objects.  Not covered: numbers with a fraction or
    an exponent and the NaN and Infinity constants (floats), and [\u]
    escapes. *)
Definition is_ws (c : ascii) : bool :=
  Ascii.eqb c " " || Ascii.eqb c "009" || Ascii.eqb c "010" || Ascii.eqb c "013".

Fixpoint skip_ws (s : list ascii) : list ascii :=
  match s with
  | c :: r => if is_ws c then skip_ws r else s
  | [] => []
  end.

Definition digit_of (c : ascii) : option Z :=
  let n := nat_of_ascii c in
  if (48 <=? n)%nat && (n <=? 57)%nat then Some (Z.of_nat (n - 48)) else None.

(** The longest prefix of digits, as a number, and the rest. *)
Fixpoint digits (s : list ascii) (acc : Z) : Z * list ascii :=
  match s with
  | c :: r =>
      match digit_of c with
      | Some d => digits r (10 * acc + d)
      | None => (acc, s)
      end
  | [] => (acc, [])
  end.

Definition starts_float_tail (s : list ascii) : bool :=
  match s with
  | c :: _ => Ascii.eqb c "." || Ascii.eqb c "e" || Ascii.eqb c "E"
  | [] => false
  end.

(** An integer literal without sign: [0], or digits not starting with 0. *)
Definition parse_nat (s : list ascii) : result (Z * list ascii) :=
  match s with
  | c :: r =>
      match digit_of c with
      | Some d =>
          let '(n, r') := if decide (d = 0%Z) then (0%Z, r) else digits r d in
          if starts_float_tail r' then Raise (NotModelled "json: float literal")
          else Ok (n, r')
      | None => Raise JSONDecodeError
      end
  | [] => Raise JSONDecodeError
  end.

Definition unescape (c : ascii) : result ascii :=
  if Ascii.eqb c "034" then Ok "034"
  else if Ascii.eqb c "\" then Ok "\"
  else if Ascii.eqb c "/" then Ok "/"
  else if Ascii.eqb c "b" then Ok "008"
  else if Ascii.eqb c "f" then Ok "012"
  else if Ascii.eqb c "n" then Ok "010"
  else if Ascii.eqb c "r" then Ok "013"
  else if Ascii.eqb c "t" then Ok "009"
  else if Ascii.eqb c "u" then Raise (NotModelled "json: unicode escape")
  else Raise JSONDecodeError.

(** The characters of a string literal after its opening quote. *)
Fixpoint parse_chars (s : list ascii) (acc : list ascii)
  : result (string * list ascii) :=
  match s with
  | [] => Raise JSONDecodeError
  | c :: r =>
      if Ascii.eqb c "034" then Ok (string_of_list_ascii (rev acc), r)
      else if Ascii.eqb c "\" then
        match r with
        | e :: r' =>
            match unescape e with
            | Ok x => parse_chars r' (x :: acc)
            | Raise err => Raise err
            end
        | [] => Raise JSONDecodeError
        end
      else if (nat_of_ascii c <? 32)%nat then Raise JSONDecodeError
      else parse_chars r (c :: acc)
  end.

Fixpoint eat (lit s : list ascii) : option (list ascii) :=
  match lit, s with
  | [], _ => Some s
  | a :: lit', b :: s' => if Ascii.eqb a b then eat lit' s' else None
  | _ :: _, [] => None
  end.

Definition keyword (s : list ascii) : option (result pyval * list ascii) :=
  match eat (list_ascii_of_string "null") s with
  | Some r => Some (Ok PNone, r)
  | None =>
  match eat (list_ascii_of_string "true") s with
  | Some r => Some (Ok (PBool true), r)
  | None =>
  match eat (list_ascii_of_string "false") s with
  | Some r => Some (Ok (PBool false), r)
  | None =>
  match eat (list_ascii_of_string "NaN") s with
  | Some r => Some (Raise (NotModelled "json: float literal"), r)
  | None =>
  match eat (list_ascii_of_string "Infinity") s with
  | Some r => Some (Raise (NotModelled "json: float literal"), r)
  | None =>
  match eat (list_ascii_of_string "-Infinity") s with
  | Some r => Some (Raise (NotModelled "json: float literal"), r)
  | None => None
  end end end end end end.

Fixpoint parse_value (fuel : nat) (s : list ascii)
  : result (pyval * list ascii) :=
  match fuel with
  | O => Raise (NotModelled "json: nesting beyond the fuel")
  | S fuel' =>
      let s := skip_ws s in
      match keyword s with
      | Some (Ok v, r) => Ok (v, r)
      | Some (Raise e, _) => Raise e
      | None =>
      match s with
      | [] => Raise JSONDecodeError
      | c :: r =>
          if Ascii.eqb c "034" then
            '(str, r') ← parse_chars r []; Ok (PStr str, r')
          else if Ascii.eqb c "[" then
            match skip_ws r with
            | c' :: r' =>
                if Ascii.eqb c' "]" then Ok (PList [], r')
                else parse_elements fuel' r []
            | [] => Raise JSONDecodeError
            end
          else if Ascii.eqb c "{" then
            match skip_ws r with
            | c' :: r' =>
                if Ascii.eqb c' "}" then Ok (PDict [], r')
                else parse_members fuel' r []
            | [] => Raise JSONDecodeError
            end
          else if Ascii.eqb c "-" then
            '(n, r') ← parse_nat r; Ok (PInt (- n), r')
          else
            '(n, r') ← parse_nat s; Ok (PInt n, r')
      end
      end
  end
with parse_elements (fuel : nat) (s : list ascii) (acc : list pyval)
  : result (pyval * list ascii) :=
  match fuel with
  | O => Raise (NotModelled "json: nesting beyond the fuel")
  | S fuel' =>
      '(v, r) ← parse_value fuel' s;
      match skip_ws r with
      | c :: r' =>
          if Ascii.eqb c "," then parse_elements fuel' r' (v :: acc)
          else if Ascii.eqb c "]" then Ok (PList (rev (v :: acc)), r')
          else Raise JSONDecodeError
      | [] => Raise JSONDecodeError
      end
  end
with parse_members (fuel : nat) (s : list ascii) (acc : dict pyval)
  : result (pyval * list ascii) :=
  match fuel with
  | O => Raise (NotModelled "json: nesting beyond the fuel")
  | S fuel' =>
      match skip_ws s with
      | q :: r0 =>
          if Ascii.eqb q "034" then
            '(k, r1) ← parse_chars r0 [];
            match skip_ws r1 with
            | c1 :: r2 =>
                if Ascii.eqb c1 ":" then
                  '(v, r3) ← parse_value fuel' r2;
                  match skip_ws r3 with
                  | c :: r' =>
                      if Ascii.eqb c ","
                      then parse_members fuel' r' (dict_set k v acc)
                      else if Ascii.eqb c "}"
                      then Ok (PDict (dict_set k v acc), r')
                      else Raise JSONDecodeError
                  | [] => Raise JSONDecodeError
                  end
                else Raise JSONDecodeError
            | [] => Raise JSONDecodeError
            end
          else Raise JSONDecodeError
      | [] => Raise JSONDecodeError
      end
  end.

Definition json_load (text : string) : result pyval :=
  let s := list_ascii_of_string text in
  '(v, r) ← parse_value (2 * length s + 2) s;
  match skip_ws r with
  | [] => Ok v
  | _ :: _ => Raise JSONDecodeError
  end.

(** *** DataFrame.from_records(records, columns=col_names)

    Covered: records that are lists, labels that are strings.  The width
    of the data is the length of its longest record, shorter records are
    filled with None, and a width other than the number of labels is
    refused.  Without records the frame has the labels and no row. *)
Definition label_of (v : pyval) : option string :=
  match v with
  | PStr s => Some s
  | _ => None
  end.

Definition cells_of (v : pyval) : option (list pyval) :=
  match v with
  | PList l => Some l
  | _ => None
  end.

Definition column_at (rows : list (list pyval)) (j : nat) : list pyval :=
  (λ r : list pyval, default PNone (r !! j)) <$> rows.

Definition width_error (labels width : nat) : exn :=
  ValueError (pretty labels +:+ " columns passed, passed data had "
              +:+ pretty width +:+ " columns").

Definition build_frame (names : list string) (rows : list (list pyval))
  : result DataFrame :=
  match rows with
  | [] => Ok (mkFrame 0 ((λ n : string, (n, [])) <$> names))
  | _ :: _ =>
      let width := max_list (length <$> rows) in
      if decide (length names = width)
      then Ok (mkFrame (match names with [] => 0 | _ :: _ => length rows end)
                       (imap (λ j n, (n, column_at rows j)) names))
      else Raise (width_error (length names) width)
  end.

Definition from_records (records columns : pyval) : result DataFrame :=
  match records, columns with
  | PList recs, PList labels =>
      match mapM label_of labels, mapM cells_of recs with
      | Some names, Some rows => build_frame names rows
      | _, _ => Raise (NotModelled "from_records: labels or records")
      end
  | _, _ => Raise (NotModelled "from_records: labels or records")
  end.

(** *** pandas.read_csv(path, dtype=dtype)

    Covered: lines ended by a line feed, fields separated by commas; a
    header of distinct names; rows with as many fields as the header;
    cells that are integer literals within 64 bits or words (a letter,
    then letters, digits and underscores) other than the spellings pandas
    reads as a missing value, a boolean or a float.  A column without a
    hint holds integers when every cell is an integer literal and strings
    otherwise; the [str] hint keeps the text of every cell; the [int] hint
    refuses a cell that is not an integer literal. *)
Fixpoint split_on (sep : ascii) (s cur : list ascii) : list (list ascii) :=
  match s with
  | [] => [rev cur]
  | c :: r =>
      if Ascii.eqb c sep then rev cur :: split_on sep r []
      else split_on sep r (c :: cur)
  end.

Definition nonempty (l : list ascii) : bool :=
  match l with
  | [] => false
  | _ :: _ => true
  end.

(** Blank lines are skipped. *)
Definition csv_lines (text : string) : list (list (list ascii)) :=
  (λ line, split_on "," line []) <$>
    filter (λ line, nonempty line = true)
           (split_on "010" (list_ascii_of_string text) []).

Definition is_letter (c : ascii) : bool :=
  let n := nat_of_ascii c in
  ((65 <=? n)%nat && (n <=? 90)%nat) || ((97 <=? n)%nat && (n <=? 122)%nat).

Definition is_plain (c : ascii) : bool :=
  is_letter c || bool_decide (is_Some (digit_of c)) || Ascii.eqb c "_".

Definition lower (c : ascii) : ascii :=
  let n := nat_of_ascii c in
  if (65 <=? n)%nat && (n <=? 90)%nat then ascii_of_nat (n + 32) else c.

Definition reserved_words : list string :=
  ["nan"; "null"; "none"; "na"; "true"; "false"; "inf"; "infinity"]%string.

Definition is_word (cell : list ascii) : bool :=
  match cell with
  | c :: _ =>
      is_letter c && forallb is_plain cell
      && negb (bool_decide
                 (string_of_list_ascii (lower <$> cell) ∈ reserved_words))
  | [] => false
  end.

Definition unsigned_literal (cell : list ascii) : option Z :=
  match cell with
  | [] => None
  | _ :: _ =>
      match digits cell 0 with
      | (n, []) => Some n
      | (_, _ :: _) => None
      end
  end.

Definition int_literal (cell : list ascii) : option Z :=
  match cell with
  | c :: r =>
      if Ascii.eqb c "-" then Z.opp <$> unsigned_literal r
      else unsigned_literal cell
  | [] => None
  end.

Definition fits_int64 (z : Z) : bool :=
  bool_decide (- 2 ^ 63 ≤ z < 2 ^ 63)%Z.

Definition cell_covered (cell : list ascii) : bool :=
  match int_literal cell with
  | Some z => fits_int64 z
  | None => is_word cell
  end.

Definition header_covered (names : list (list ascii)) : bool :=
  forallb (λ n, nonempty n && forallb is_plain n) names
  && bool_decide (NoDup names).

(** The cells of one column, by its hint. *)
Definition convert_column (hint : option dtype) (cells : list (list ascii))
  : result (list pyval) :=
  let text := (λ c, PStr (string_of_list_ascii c)) <$> cells in
  match hint with
  | Some dtype_str => Ok text
  | Some dtype_int =>
      match mapM int_literal cells with
      | Some zs => Ok (PInt <$> zs)
      | None => Raise (ValueError "invalid literal for int() with base 10")
      end
  | None =>
      match mapM int_literal cells with
      | Some zs => Ok (PInt <$> zs)
      | None => Ok text
      end
  end.

Definition read_csv (text : string) (dtype : option (dict dtype))
  : result DataFrame :=
  match csv_lines text with
  | [] => Raise EmptyDataError
  | header :: rows =>
      if header_covered header
         && forallb (λ r, bool_decide (length r = length header)
                          && forallb cell_covered r) rows
      then
        columns ← map_result
          (λ jn : nat * list ascii,
             let name := string_of_list_ascii jn.2 in
             cells ← convert_column (dtype ≫= dict_get name)
                                    ((λ r : list (list ascii),
                                        default [] (r !! jn.1)) <$> rows);
             Ok (name, cells))
          (imap pair header);
        Ok (mkFrame (length rows) columns)
      else Raise (NotModelled "read_csv: document")
  end.

(** *** The warehouse: a service that accepts every job *)
Definition accept : warehouse → LoadJob → option string := λ _ _, None.

(** One that refuses every job. *)
Definition refuse : warehouse → LoadJob → option string :=
  λ _ _, Some "quota exceeded"%string.

Definition library (verdict : warehouse → LoadJob → option string)
  : Collaborators :=
  Build_Collaborators json_load from_records read_csv verdict.

End Reference.

(** ** Vocabulary of the statements *)

(** The object a staged download finds: [gcs[bucket][name]]. *)
Definition stored (w : World) (bucket name : string) : option string :=
  gcs w !! bucket ≫= (.!! name).

(** The world once the local file is open for writing and the download is
    requested, and the world once the object is in the file. *)
Definition opened (bucket name : string) (w : World) : World :=
  let w0 := log (GetBucket bucket) (log StorageClient w) in
  log (DownloadBlob bucket name (local_file_path name))
      (with_fs (<[local_file_path name := ""]> (fs w0)) w0).

Definition staged (bucket name text : string) (w : World) : World :=
  let w1 := opened bucket name w in
  with_fs (<[local_file_path name := text]> (fs w1)) w1.

(** The check of [append_dataframe_to_bq] passes: as many keys as columns,
    and the same set of them. *)
Definition passes_validation (column_types : dict string) (f : DataFrame)
  : Prop :=
  length (dict_keys column_types) = length (frame_columns f)
  ∧ list_to_set (dict_keys column_types)
    =@{gset string} list_to_set (frame_columns f).

#[export] Instance passes_validation_dec column_types f :
  Decision (passes_validation column_types f).
Proof. unfold passes_validation. apply _. Defined.

(** The cell of row [i] in the column labelled [c]. *)
Definition frame_cell (f : DataFrame) (i : nat) (c : string) : option pyval :=
  dict_get c (cols f) ≫= (.!! i).


(** The values that have a [copy] method, and the values that cannot be
    subscripted. *)
Definition has_copy (x : pyval) : bool :=
  match x with
  | PList _ | PDict _ => true
  | PNone | PBool _ | PInt _ | PFloat _ | PStr _ => false
  end.

Definition is_scalar (x : pyval) : bool :=
  match x with
  | PNone | PBool _ | PInt _ | PFloat _ => true
  | PStr _ | PList _ | PDict _ => false
  end.

(** The parsed documents that are not a header followed by records, with
    the exception Python raises on [data[0].copy()] for each. *)
Inductive malformed_values : pyval → exn → Prop :=
  | malformed_no_header :
      malformed_values (PList []) IndexError
  | malformed_header (h : pyval) (recs : list pyval) :
      has_copy h = false →
      malformed_values (PList (h :: recs)) AttributeError
  | malformed_object (d : list (string * pyval)) :
      malformed_values (PDict d) KeyError
  | malformed_empty_text :
      malformed_values (PStr "") IndexError
  | malformed_text (c : ascii) (s : string) :
      malformed_values (PStr (String c s)) AttributeError
  | malformed_scalar (x : pyval) :
      is_scalar x = true →
      malformed_values x TypeError.


(** [out] is [w] but for the remote calls made and, possibly, the staging
    file of the object [name]. *)
Definition same_but_staging_file (name : string) (w out : World) : Prop :=
  credentials out = credentials w
  ∧ gcs out = gcs w
  ∧ clock out = clock w
  ∧ frames out = frames w
  ∧ bq out = bq w
  ∧ ∀ path, path ≠ local_file_path name → fs out !! path = fs w !! path.

(** The field [create_field] makes for a key of [columns]. *)
Definition field_of (columns col_modes : dict string) (col : string)
  : SchemaField :=
  mkField col (default "" (dict_get col columns))
          (default "NULLABLE" (dict_get col col_modes)).

(** ** Documents and worlds of the examples *)

Definition dq : string := String "034" "".
Definition nl : string := String "010" "".
Definition quoted (s : string) : string := dq +:+ s +:+ dq.

(** [[["a","b"],[1,2],[3,4]]] *)
Definition values_document : string :=
  "[[" +:+ quoted "a" +:+ "," +:+ quoted "b" +:+ "],[1,2],[3,4]]".

(** [[["a","b"],[1,2,3]]]: a record longer than the header. *)
Definition long_row_document : string :=
  "[[" +:+ quoted "a" +:+ "," +:+ quoted "b" +:+ "],[1,2,3]]".

(** [[["a","b"],[1,2],[3]]]: a record shorter than the header. *)
Definition short_row_document : string :=
  "[[" +:+ quoted "a" +:+ "," +:+ quoted "b" +:+ "],[1,2],[3]]".

(** The lines [a,b], [1,2], [3,4], each ended by a line feed. *)
Definition csv_document : string :=
  "a,b" +:+ nl +:+ "1,2" +:+ nl +:+ "3,4" +:+ nl.

Definition frame_ab : DataFrame :=
  mkFrame 2 [("a", [PInt 1; PInt 3]); ("b", [PInt 2; PInt 4])].

Definition types_ab : dict string := [("a", "INT64"); ("b", "INT64")].

Definition world0 : World :=
  {| credentials := true;
     gcs := {[ "bucket" := {[ "values.json" := values_document;
                              "long.json" := long_row_document;
                              "short.json" := short_row_document;
                              "broken.json" := "[[";
                              "table.csv" := csv_document ]} ]};
     fs := ∅;
     clock := Q2Qc (1604512345 # 1);
     frames := {[ 0%nat := frame_ab; 1%nat := frame_ab ]};
     bq := ∅;
     trace := [] |}.

(** A later clock reading. *)
Definition later : Qc := Q2Qc (1604512346 # 1).

(** The reference libraries, with a warehouse that accepts every job and
    with one that refuses every job. *)
Definition reference : Collaborators := Reference.library Reference.accept.
Definition refusing : Collaborators := Reference.library Reference.refuse.


(** The mapping of [types_ab] with its keys in the other order. *)
Definition types_ba : dict string := [("b", "INT64"); ("a", "INT64")].

(** A world whose bucket holds documents that are not tables. *)
Definition world1 : World :=
  {| credentials := true;
     gcs := {[ "bucket" := {[ "empty.json" := "[]";
                              "object.json" := "{}";
                              "number.json" := "7" ]} ]};
     fs := {[ "/tmp/kept.csv" := "x" ]};
     clock := Q2Qc (1604512345 # 1);
     frames := ∅;
     bq := ∅;
     trace := [] |}.

(** * Properties *)

(** ** Dictionaries *)

Lemma dict_get_set_eq {V : Type} (k : string) (v : V) (d : dict V) :
  dict_get k (dict_set k v d) = Some v.
Proof.
  induction d as [|[k' v'] d IH]; simpl.
  - by rewrite decide_True.
  - destruct (decide (k' = k)) as [->|Hne]; simpl.
    + by rewrite decide_True.
    + by rewrite decide_False.
Qed.

Lemma dict_get_set_ne {V : Type} (k k' : string) (v : V) (d : dict V) :
  k ≠ k' → dict_get k' (dict_set k v d) = dict_get k' d.
Proof.
  intros Hne. induction d as [|[k0 v0] d IH]; simpl.
  - by rewrite decide_False.
  - destruct (decide (k0 = k)) as [->|Hk0]; simpl.
    + by rewrite !decide_False.
    + by rewrite IH.
Qed.

Lemma dict_keys_set {V : Type} (k : string) (v : V) (d : dict V) :
  dict_keys (dict_set k v d)
  = if bool_decide (k ∈ dict_keys d) then dict_keys d else dict_keys d ++ [k].
Proof.
  unfold dict_keys. induction d as [|[k' v'] d IH]; csimpl; [done|].
  destruct (decide (k' = k)) as [->|Hne]; csimpl.
  - rewrite bool_decide_true; [done|]. left.
  - rewrite IH. case_bool_decide as Hin.
    + rewrite bool_decide_true; [done|]. by right.
    + rewrite bool_decide_false; [done|].
      intros Hin'. apply elem_of_cons in Hin' as [->|?]; done.
Qed.

Lemma dict_set_wf {V : Type} (k : string) (v : V) (d : dict V) :
  dict_wf d → dict_wf (dict_set k v d).
Proof.
  unfold dict_wf. intros Hwf. rewrite dict_keys_set.
  case_bool_decide as Hin; [done|].
  apply NoDup_app. split_and!; [done| |apply NoDup_singleton].
  intros x Hx ->%list_elem_of_singleton. done.
Qed.

Lemma dict_get_is_Some {V : Type} (k : string) (d : dict V) :
  is_Some (dict_get k d) ↔ k ∈ dict_keys d.
Proof.
  unfold dict_keys. induction d as [|[k' v'] d IH]; csimpl.
  - split; [by intros [? ?]|by intros ?%elem_of_nil].
  - destruct (decide (k' = k)) as [->|Hne].
    + split; [intros _; left|by eauto].
    + rewrite IH. split; [by right|].
      intros Hin. apply elem_of_cons in Hin as [->|?]; done.
Qed.

Lemma dict_get_app_fresh {V : Type} (k : string) (v : V) (d : dict V) :
  k ∉ dict_keys d → dict_get k (d ++ [(k, v)]) = Some v.
Proof.
  unfold dict_keys. induction d as [|[k' v'] d IH]; csimpl; intros Hk.
  - by rewrite decide_True.
  - apply not_elem_of_cons in Hk as [Hne Hk].
    rewrite decide_False by done. by apply IH.
Qed.

Lemma dict_get_fill {V : Type} (k : string) (v : V) (d : dict V) :
  k ∈ dict_keys d →
  dict_get k ((λ kv : string * V, if decide (kv.1 = k) then (kv.1, v) else kv)
                <$> d) = Some v.
Proof.
  unfold dict_keys. induction d as [|[k' v'] d IH]; csimpl; intros Hk.
  - by apply elem_of_nil in Hk.
  - destruct (decide (k' = k)) as [->|Hne]; csimpl.
    + by rewrite decide_True.
    + rewrite decide_False by done.
      apply elem_of_cons in Hk as [->|Hk]; [done|]. by apply IH.
Qed.


(** ** Lists *)

(** A list as long as a duplicate-free list with the same elements has no
    duplicates either. *)
Lemma NoDup_same_set (l1 l2 : list string) :
  length l1 = length l2 →
  list_to_set l1 =@{gset string} list_to_set l2 →
  NoDup l2 → NoDup l1.
Proof.
  intros Hlen Hset Hnd.
  assert (l2 ⊆+ l1) as Hsub.
  { apply NoDup_submseteq; [done|]. intros x Hx.
    apply (elem_of_list_to_set (C := gset string)).
    rewrite Hset. by apply elem_of_list_to_set. }
  apply submseteq_length_Permutation in Hsub; [|lia].
  by rewrite <-Hsub.
Qed.

Lemma filter_absent {A : Type} (f : A → string) (x : string) (l : list A) :
  x ∉ f <$> l → filter (λ a, f a = x) l = [].
Proof.
  induction l as [|a l IH]; csimpl; intros Hx; [done|].
  apply not_elem_of_cons in Hx as [Hne Hx].
  rewrite filter_cons, decide_False by done. by apply IH.
Qed.

Lemma filter_unique {A : Type} (f : A → string) (x : string) (l : list A) :
  NoDup (f <$> l) → x ∈ f <$> l →
  length (filter (λ a, f a = x) l) = 1.
Proof.
  induction l as [|a l IH]; csimpl; intros Hnd Hx.
  - by apply elem_of_nil in Hx.
  - apply NoDup_cons in Hnd as [Ha Hnd].
    rewrite filter_cons. destruct (decide (f a = x)) as [<-|Hne]; simpl.
    + by rewrite filter_absent.
    + apply IH; [done|]. apply elem_of_cons in Hx as [->|?]; done.
Qed.

Lemma Forall2_names {A B : Type} (P : A → B → Prop) (g : B → A)
    (l : list A) (k : list B) :
  (∀ a b, P a b → g b = a) → Forall2 P l k → g <$> k = l.
Proof.
  intros HP. induction 1 as [|a b l k Hab _ IH]; csimpl; [done|].
  by rewrite (HP _ _ Hab), IH.
Qed.

(** ** DataFrames *)

Lemma frame_setitem_nrows (c : string) (v : pyval) (f : DataFrame) :
  nrows (frame_setitem c v f) = nrows f.
Proof. done. Qed.

(** After [frame[c] = v] the column labelled [c] holds [v] in every row. *)
Lemma frame_setitem_column (c : string) (v : pyval) (f : DataFrame) :
  dict_get c (cols (frame_setitem c v f)) = Some (replicate (nrows f) v).
Proof.
  unfold frame_setitem. simpl. case_bool_decide as Hin.
  - by apply dict_get_fill.
  - by apply dict_get_app_fresh.
Qed.

Lemma frame_setitem_columns (c : string) (v : pyval) (f : DataFrame) :
  frame_columns (frame_setitem c v f)
  = if bool_decide (c ∈ frame_columns f) then frame_columns f
    else frame_columns f ++ [c].
Proof.
  unfold frame_setitem, frame_columns. simpl. case_bool_decide as Hin.
  - rewrite <-list_fmap_compose. apply list_fmap_ext.
    intros i [k cells] _. simpl. by destruct (decide (k = c)).
  - by rewrite fmap_app.
Qed.

Lemma frame_setitem_cell (c : string) (v : pyval) (f : DataFrame) (i : nat) :
  i < nrows f → frame_cell (frame_setitem c v f) i c = Some v.
Proof.
  intros Hi. unfold frame_cell. rewrite frame_setitem_column. simpl.
  by apply lookup_replicate_2.
Qed.


Lemma to_json_records_Ok (f : DataFrame) (rows : list record) :
  to_json_records f = Ok rows →
  rows = frame_record f <$> seq 0 (nrows f) ∧ NoDup (frame_columns f).
Proof.
  unfold to_json_records. case_bool_decide; [|done]. by intros [= <-].
Qed.

(** ** The exception monad *)

Lemma map_result_Ok {A B : Type} (f : A → result B) (l : list A) (bs : list B) :
  map_result f l = Ok bs → Forall2 (λ a b, f a = Ok b) l bs.
Proof.
  revert bs. induction l as [|a l IH]; simpl; intros bs Hbs.
  - injection Hbs as <-. constructor.
  - destruct (f a) as [b|e] eqn:Hfa; simpl in Hbs; [|done].
    destruct (map_result f l) as [bs'|e] eqn:Hl; simpl in Hbs; [|done].
    injection Hbs as <-. constructor; [done|]. by apply IH.
Qed.

Lemma create_field_Ok (columns col_modes : dict string) (col : string)
    (fld : SchemaField) :
  create_field columns col_modes col = Ok fld →
  field_name fld = col ∧ dict_get col columns = Some (field_type fld).
Proof.
  unfold create_field, dict_getitem. intros Hfld.
  destruct (dict_get col columns) as [ty|]; simpl in Hfld; [|done].
  destruct (if dict_contains col col_modes then _ else _) as [mode|];
    simpl in Hfld; [|done].
  injection Hfld as <-. done.
Qed.

(** ** The runs of [append_dataframe_to_bq] *)

Section Append.
Context `{Collaborators}.

(** The module's only remote calls are the two it makes in order. *)
Lemma new_events_log (w w' : World) (es : list event) :
  trace w' = trace w ++ es → new_events w w' = es.
Proof. unfold new_events. intros ->. by rewrite drop_app_length. Qed.

(** Every run of the function, spelled out. *)
Lemma append_run frame column_types dataset table_name col_modes w T :
  frames w !! frame = Some T →
  let modes := default [] col_modes in
  let columns := dict_set "ingestion_time" "TIMESTAMP" column_types in
  let T' := frame_setitem "ingestion_time" (PFloat (clock w)) T in
  let w1 := with_frames (<[frame := T']> (frames w)) w in
  let w2 := log BigqueryClient w1 in
  append_dataframe_to_bq frame column_types dataset table_name col_modes w =
    if bool_decide (passes_validation column_types T) then
      if credentials w then
        match map_result (create_field columns modes) (dict_keys columns) with
        | Raise e => (Raise e, w2)
        | Ok sch =>
            match to_json_records T' with
            | Raise e => (Raise e, w2)
            | Ok rows =>
                let j := mkJob rows dataset table_name
                               (mkConfig (Some WRITE_APPEND) (Some sch)) in
                let w3 := log (LoadTableFromJson j) w2 in
                match load_job_verdict (bq w) j with
                | Some detail => (Raise (LoadJobError detail), w3)
                | None =>
                    (Ok (),
                     with_bq (<[(dataset, table_name) :=
                                  table_rows (bq w) (dataset, table_name)
                                  ++ rows]> (bq w)) w3)
                end
            end
        end
      else (Raise DefaultCredentialsError, w1)
    else (Raise SchemaMismatch, w).
Proof.
  intros Hframe modes columns T' w1 w2.
  unfold append_dataframe_to_bq, mbind, M_bind, get_frame at 1.
  rewrite Hframe.
  destruct (decide (passes_validation column_types T)) as [Hval|Hval].
  - rewrite (bool_decide_true _ Hval). destruct Hval as [Hlen Hset].
    rewrite Hlen, Nat.eqb_refl, (bool_decide_true _ Hset). simpl.
    unfold setitem, mbind, M_bind, get_frame, time_time, modify.
    rewrite Hframe. simpl. fold T' w1.
    unfold bigquery_Client. simpl.
    destruct (credentials w); [|done].
    fold w2. unfold lift, dict_copy. fold columns modes.
    destruct (map_result _ _) as [sch|e]; [|done].
    simpl. rewrite lookup_insert_eq.
    destruct (to_json_records T') as [rows|e]; [|done].
    unfold load_table_from_json, load_job_result. simpl.
    destruct (load_job_verdict _ _); done.
  - rewrite (bool_decide_false _ Hval).
    apply not_and_l in Hval as [Hlen|Hset].
    + apply Nat.eqb_neq in Hlen. by rewrite Hlen.
    + rewrite (bool_decide_false _ Hset). by rewrite orb_true_r.
Qed.

Lemma append_dangling frame column_types dataset table_name col_modes w :
  frames w !! frame = None →
  append_dataframe_to_bq frame column_types dataset table_name col_modes w
  = (Raise (NotModelled "dangling reference"), w).
Proof.
  intros Hframe.
  unfold append_dataframe_to_bq, mbind, M_bind, get_frame. by rewrite Hframe.
Qed.

Lemma new_events_same (w w' : World) :
  trace w' = trace w → new_events w w' = [].
Proof. intros Heq. apply new_events_log. by rewrite app_nil_r. Qed.

Lemma new_events_two (w w' : World) (a b : event) :
  trace w' = (trace w ++ [a]) ++ [b] → new_events w w' = [a; b].
Proof. intros Heq. apply new_events_log. by rewrite Heq, <-app_assoc. Qed.

Ltac events :=
  first [ rewrite new_events_same by reflexivity
        | erewrite new_events_log by reflexivity
        | erewrite new_events_two by reflexivity ].

(** A successful run: the check passed, one job went out, the frame and
    the destination table changed as follows. *)
Lemma append_Ok_inv frame column_types dataset table_name col_modes w w' T :
  frames w !! frame = Some T →
  append_dataframe_to_bq frame column_types dataset table_name col_modes w
  = (Ok (), w') →
  let columns := dict_set "ingestion_time" "TIMESTAMP" column_types in
  let T' := frame_setitem "ingestion_time" (PFloat (clock w)) T in
  ∃ sch rows,
    passes_validation column_types T
    ∧ map_result (create_field columns (default [] col_modes))
                 (dict_keys columns) = Ok sch
    ∧ to_json_records T' = Ok rows
    ∧ new_events w w'
      = [BigqueryClient;
         LoadTableFromJson
           (mkJob rows dataset table_name
                  (mkConfig (Some WRITE_APPEND) (Some sch)))]
    ∧ frames w' = <[frame := T']> (frames w)
    ∧ bq w' = <[(dataset, table_name) :=
                  table_rows (bq w) (dataset, table_name) ++ rows]> (bq w).
Proof.
  intros Hframe Hrun columns T'.
  rewrite (append_run _ _ _ _ _ _ _ Hframe) in Hrun.
  case_bool_decide as Hval; [|done].
  destruct (credentials w); [|done].
  fold columns in Hrun.
  destruct (map_result _ _) as [sch|e]; [|done].
  fold T' in Hrun.
  destruct (to_json_records T') as [rows|e]; [|done].
  simpl in Hrun. destruct (load_job_verdict _ _); [done|].
  injection Hrun as <-. exists sch, rows. split_and!; try done.
  by events.
Qed.

(** Whatever the run, a job it submitted appends, and its rows are the
    rows of the frame after the ingestion time was set. *)
Lemma append_jobs frame column_types dataset table_name col_modes w j :
  j ∈ submitted_jobs
        (new_events w (append_dataframe_to_bq frame column_types dataset
                         table_name col_modes w).2) →
  write_disposition (job_config j) = Some WRITE_APPEND
  ∧ job_destination j = (dataset, table_name)
  ∧ ∃ T, frames w !! frame = Some T
         ∧ job_rows j
           = frame_record (frame_setitem "ingestion_time" (PFloat (clock w)) T)
               <$> seq 0 (nrows T).
Proof.
  destruct (frames w !! frame) as [T|] eqn:Hframe.
  - rewrite (append_run _ _ _ _ _ _ _ Hframe).
    case_bool_decide as Hval; [|by events; intros ?%elem_of_nil].
    destruct (credentials w); [|by events; intros ?%elem_of_nil].
    destruct (map_result _ _) as [sch|e]; [|by events; intros ?%elem_of_nil].
    destruct (to_json_records _) as [rows|e] eqn:Hrows;
      [|by events; intros ?%elem_of_nil].
    apply to_json_records_Ok in Hrows as [-> _].
    simpl. destruct (load_job_verdict _ _); events; simpl;
      intros ->%list_elem_of_singleton; split_and!; eauto.
  - rewrite append_dangling by done. by events; intros ?%elem_of_nil.
Qed.

(** Whatever the run, the warehouse is either as before or has the rows of
    the one submitted job after those the destination table had. *)
Lemma append_bq frame column_types dataset table_name col_modes w :
  let out := append_dataframe_to_bq frame column_types dataset table_name
               col_modes w in
  bq out.2 = bq w
  ∨ ∃ j, out.1 = Ok ()
         ∧ submitted_jobs (new_events w out.2) = [j]
         ∧ bq out.2 = <[(dataset, table_name) :=
                          table_rows (bq w) (dataset, table_name)
                          ++ job_rows j]> (bq w).
Proof.
  simpl. destruct (frames w !! frame) as [T|] eqn:Hframe.
  - rewrite (append_run _ _ _ _ _ _ _ Hframe).
    case_bool_decide as Hval; [|by left].
    destruct (credentials w); [|by left].
    destruct (map_result _ _) as [sch|e]; [|by left].
    destruct (to_json_records _) as [rows|e]; [|by left].
    simpl. destruct (load_job_verdict _ _); [by left|].
    right. eexists (mkJob rows _ _ _). split_and!; [done|by events|done].
  - rewrite append_dangling by done. by left.
Qed.

(** C1. When the key set of the column-type mapping differs from the
    column set of the table, [append_dataframe_to_bq] raises the
    schema-mismatch exception and leaves the world as it found it: in
    particular no warehouse client was constructed and no load job was
    submitted. *)
Theorem schema_mismatch_raises_before_any_call
    frame column_types dataset table_name col_modes w T :
  frames w !! frame = Some T →
  list_to_set (dict_keys column_types)
    ≠ (list_to_set (frame_columns T) : gset string) →
  let out := append_dataframe_to_bq frame column_types dataset table_name
               col_modes w in
  out.1 = Raise SchemaMismatch
  ∧ out.2 = w
  ∧ (BigqueryClient ∉ new_events w out.2)
  ∧ submitted_jobs (new_events w out.2) = [].
Proof.
  intros Hframe Hset. simpl.
  rewrite (append_run _ _ _ _ _ _ _ Hframe).
  rewrite bool_decide_false by (by intros [_ ?]).
  simpl. events. split_and!; try done. apply not_elem_of_nil.
Qed.

(** A passed check and duplicate-free columns make the mapping a
    dictionary with the table's columns as its keys. *)
Lemma validation_keys column_types T :
  passes_validation column_types T →
  ∀ c, c ∈ dict_keys column_types ↔ c ∈ frame_columns T.
Proof.
  intros [_ Hset] c.
  rewrite <-(elem_of_list_to_set (C := gset string) c (dict_keys _)), Hset.
  apply elem_of_list_to_set.
Qed.

Lemma frame_setitem_NoDup c v f :
  NoDup (frame_columns (frame_setitem c v f)) → NoDup (frame_columns f).
Proof.
  rewrite frame_setitem_columns. case_bool_decide; [done|].
  by intros [? _]%NoDup_app.
Qed.

(** C2. The schema of a successful call has no repeated name, its names
    are the columns of the table and [ingestion_time], exactly one field
    is named [ingestion_time], the type of that field is [TIMESTAMP]
    whatever the mapping gave for it, and the type of any other field is the
    one the mapping gave. *)
Theorem emitted_schema frame column_types dataset table_name col_modes w w' T :
  frames w !! frame = Some T →
  append_dataframe_to_bq frame column_types dataset table_name col_modes w
  = (Ok (), w') →
  ∃ j sch,
    submitted_jobs (new_events w w') = [j]
    ∧ schema (job_config j) = Some sch
    ∧ NoDup (field_name <$> sch)
    ∧ (∀ c, c ∈ field_name <$> sch
            ↔ c ∈ frame_columns T ∨ c = "ingestion_time")
    ∧ length (filter (λ fld, field_name fld = "ingestion_time") sch) = 1
    ∧ (∀ fld, fld ∈ sch → field_name fld = "ingestion_time" →
              field_type fld = "TIMESTAMP")
    ∧ (∀ fld, fld ∈ sch → field_name fld ≠ "ingestion_time" →
              dict_get (field_name fld) column_types = Some (field_type fld)).
Proof.
  intros Hframe Hrun.
  destruct (append_Ok_inv _ _ _ _ _ _ _ _ Hframe Hrun)
    as (sch & rows & Hval & Hsch & Hrows & Hev & _ & _).
  apply to_json_records_Ok in Hrows as [_ Hnd%frame_setitem_NoDup].
  assert (dict_wf column_types) as Hwf.
  { destruct Hval as [Hlen Hset]. by eapply NoDup_same_set. }
  apply map_result_Ok in Hsch.
  assert (field_name <$> sch
          = dict_keys (dict_set "ingestion_time" "TIMESTAMP" column_types))
    as Hnames.
  { eapply Forall2_names; [|done]. by intros col fld [? _]%create_field_Ok. }
  assert (∀ c, c ∈ field_name <$> sch
               ↔ c ∈ frame_columns T ∨ c = "ingestion_time") as Hmem.
  { intros c. rewrite Hnames, dict_keys_set, <-(validation_keys _ _ Hval).
    case_bool_decide as Hin.
    - split; [by left|]. by intros [?| ->].
    - by rewrite elem_of_app, list_elem_of_singleton. }
  assert (NoDup (field_name <$> sch)) as Hnd'.
  { rewrite Hnames. by apply dict_set_wf. }
  assert (∀ fld, fld ∈ sch →
            dict_get (field_name fld)
              (dict_set "ingestion_time" "TIMESTAMP" column_types)
            = Some (field_type fld)) as Hty.
  { intros fld Hfld.
    apply list_elem_of_lookup in Hfld as [i Hi].
    destruct (Forall2_lookup_r _ _ _ _ _ Hsch Hi) as (col & _ & Hcol).
    apply create_field_Ok in Hcol as [<- Hget]. done. }
  exists (mkJob rows dataset table_name
                (mkConfig (Some WRITE_APPEND) (Some sch))), sch.
  split_and!; try done.
  - by rewrite Hev.
  - apply filter_unique; [done|]. apply Hmem. by right.
  - intros fld Hfld Hname. specialize (Hty fld Hfld).
    rewrite Hname, dict_get_set_eq in Hty. by injection Hty as <-.
  - intros fld Hfld Hname. specialize (Hty fld Hfld).
    by rewrite dict_get_set_ne in Hty.
Qed.

(** C9. A call that passes the check leaves the caller's table with an
    [ingestion_time] column holding the clock reading of the call in every
    row, whether or not the call goes on to succeed; a call that fails the
    check leaves the world, and so the table, as it was. *)
Theorem append_mutates_its_argument
    frame column_types dataset table_name col_modes w T :
  frames w !! frame = Some T →
  let out := append_dataframe_to_bq frame column_types dataset table_name
               col_modes w in
  let T' := frame_setitem "ingestion_time" (PFloat (clock w)) T in
  (passes_validation column_types T →
     frames out.2 = <[frame := T']> (frames w)
     ∧ "ingestion_time" ∈ frame_columns T'
     ∧ nrows T' = nrows T
     ∧ ∀ i, i < nrows T →
            frame_cell T' i "ingestion_time" = Some (PFloat (clock w)))
  ∧ (¬ passes_validation column_types T →
     out.1 = Raise SchemaMismatch ∧ out.2 = w).
Proof.
  intros Hframe. simpl.
  rewrite (append_run _ _ _ _ _ _ _ Hframe). split.
  - intros Hval. rewrite (bool_decide_true _ Hval).
    split_and!.
    + destruct (credentials w); [|done].
      destruct (map_result _ _); [|done].
      destruct (to_json_records _); [|done].
      simpl. by destruct (load_job_verdict _ _).
    + rewrite frame_setitem_columns. case_bool_decide; [done|].
      apply elem_of_app. right. left.
    + done.
    + intros i Hi. by apply frame_setitem_cell.
  - intros Hval. by rewrite (bool_decide_false _ Hval).
Qed.



Lemma length_to_json_records (f : DataFrame) (rows : list record) :
  to_json_records f = Ok rows → length rows = frame_len f.
Proof.
  intros [-> _]%to_json_records_Ok. by rewrite length_fmap, length_seq.
Qed.

Lemma table_rows_insert (tables : warehouse) (dest : string * string)
    (rows : list record) :
  table_rows (<[dest := rows]> tables) dest = rows.
Proof. unfold table_rows. by rewrite lookup_insert_eq. Qed.

(** C4, as the code has it. Every job a call submits is configured to
    append; no call removes or reorders rows a table already had; a
    successful call adds as many rows as the table it was given has; two
    successful calls, with the same mapping, on two distinct table objects
    of equal content add twice as many; and a second call on the very
    object of a successful first call, with a mapping that has no
    [ingestion_time] key, fails the check, because the first call added
    that column to the object. *)
Theorem append_only frame column_types dataset table_name col_modes w :
  let out := append_dataframe_to_bq frame column_types dataset table_name
               col_modes w in
  let dest := (dataset, table_name) in
  (∀ j, j ∈ submitted_jobs (new_events w out.2) →
        write_disposition (job_config j) = Some WRITE_APPEND)
  ∧ (∀ d, table_rows (bq w) d `prefix_of` table_rows (bq out.2) d)
  ∧ (∀ T, frames w !! frame = Some T → out.1 = Ok () →
          length (table_rows (bq out.2) dest)
          = length (table_rows (bq w) dest) + frame_len T)
  ∧ (∀ T frame2 modes2 now w2,
       frames w !! frame = Some T → frames w !! frame2 = Some T →
       frame ≠ frame2 → out.1 = Ok () →
       append_dataframe_to_bq frame2 column_types dataset table_name modes2
         (with_clock now out.2) = (Ok (), w2) →
       length (table_rows (bq w2) dest)
       = length (table_rows (bq w) dest) + 2 * frame_len T)
  ∧ (∀ T modes2 now,
       frames w !! frame = Some T →
       "ingestion_time" ∉ dict_keys column_types → out.1 = Ok () →
       append_dataframe_to_bq frame column_types dataset table_name modes2
         (with_clock now out.2)
       = (Raise SchemaMismatch, with_clock now out.2)).
Proof.
  simpl. split_and!.
  - by intros j [? _]%append_jobs.
  - intros d.
    destruct (append_bq frame column_types dataset table_name col_modes w)
      as [->|(j & _ & _ & ->)]; [done|].
    unfold table_rows at 2.
    destruct (decide ((dataset, table_name) = d)) as [<-|Hne].
    + rewrite lookup_insert_eq. simpl. by apply prefix_app_r.
    + by rewrite lookup_insert_ne.
  - intros T Hframe Hok.
    destruct (append_dataframe_to_bq _ _ _ _ _ w) as [r w1] eqn:Hrun.
    simpl in *. subst r.
    destruct (append_Ok_inv _ _ _ _ _ _ _ _ Hframe Hrun)
      as (_ & rows & _ & _ & Hrows%length_to_json_records & _ & _ & ->).
    by rewrite table_rows_insert, length_app, Hrows.
  - intros T frame2 modes2 now w2 Hframe Hframe2 Hne Hok Hrun2.
    destruct (append_dataframe_to_bq _ _ _ _ _ w) as [r w1] eqn:Hrun.
    simpl in *. subst r.
    destruct (append_Ok_inv _ _ _ _ _ _ _ _ Hframe Hrun)
      as (_ & rows & _ & _ & Hrows%length_to_json_records & _ & Hfr & Hbq).
    assert (frames (with_clock now w1) !! frame2 = Some T) as Hframe2'.
    { simpl. by rewrite Hfr, lookup_insert_ne. }
    destruct (append_Ok_inv _ _ _ _ _ _ _ _ Hframe2' Hrun2)
      as (_ & rows2 & _ & _ & Hrows2%length_to_json_records & _ & _ & ->).
    simpl. rewrite Hbq, !table_rows_insert, !length_app, Hrows, Hrows2.
    unfold frame_len. simpl. lia.
  - intros T modes2 now Hframe Hfresh Hok.
    destruct (append_dataframe_to_bq _ _ _ _ _ w) as [r w1] eqn:Hrun.
    simpl in *. subst r.
    destruct (append_Ok_inv _ _ _ _ _ _ _ _ Hframe Hrun)
      as (_ & _ & Hval & _ & _ & _ & Hfr & _).
    assert (frames (with_clock now w1) !! frame
            = Some (frame_setitem "ingestion_time" (PFloat (clock w)) T))
      as Hframe'.
    { simpl. by rewrite Hfr, lookup_insert_eq. }
    rewrite (append_run _ _ _ _ _ _ _ Hframe').
    rewrite bool_decide_false; [done|].
    intros [Hlen _]. rewrite frame_setitem_columns in Hlen.
    rewrite bool_decide_false in Hlen
      by (by rewrite <-(validation_keys _ _ Hval)).
    destruct Hval as [Hlen' _]. rewrite length_app in Hlen. simpl in Hlen. lia.
Qed.

End Append.

(** ** The runs of the loaders *)

Section Loaders.
Context `{Collaborators}.

(** The lines the two loaders share, followed by anything. *)
Lemma stage_run {A : Type} (k : string → M A) gcs_bucket filename w :
  (storage_Client;;
   bucket ← get_bucket gcs_bucket;
   download_to_filename bucket filename (local_file_path filename);;
   text ← open_read (local_file_path filename);
   k text) w
  = if credentials w then
      match gcs w !! gcs_bucket with
      | None =>
          (Raise NotFound, log (GetBucket gcs_bucket) (log StorageClient w))
      | Some objects =>
          match objects !! filename with
          | None => (Raise NotFound, opened gcs_bucket filename w)
          | Some text => k text (staged gcs_bucket filename text w)
          end
      end
    else (Raise DefaultCredentialsError, w).
Proof.
  unfold mbind, M_bind, storage_Client.
  destruct (credentials w); [|done].
  unfold get_bucket. simpl.
  destruct (gcs w !! gcs_bucket) as [objects|] eqn:Hbucket; [|done].
  unfold download_to_filename. simpl. rewrite Hbucket. simpl.
  destruct (objects !! filename) as [text|]; [|done].
  unfold open_read. simpl. by rewrite lookup_insert_eq.
Qed.

Lemma stored_Some w bucket name text :
  stored w bucket name = Some text ↔
  ∃ objects, gcs w !! bucket = Some objects ∧ objects !! name = Some text.
Proof. unfold stored. apply bind_Some. Qed.

Lemma staged_fs bucket name text w :
  fs (staged bucket name text w) !! local_file_path name = Some text.
Proof. simpl. apply lookup_insert_eq. Qed.

(** A staged values document: the table is parsed, and the file is removed
    when, and only when, parsing succeeded. *)
Lemma load_values_run gcs_bucket filename w text :
  credentials w = true →
  stored w gcs_bucket filename = Some text →
  load_values_as_dataframe gcs_bucket filename w
  = let ws := staged gcs_bucket filename text w in
    match parse_values text with
    | Ok frame =>
        (Ok frame, with_fs (delete (local_file_path filename) (fs ws)) ws)
    | Raise e => (Raise e, ws)
    end.
Proof.
  intros Hcred (objects & Hbucket & Hobject)%stored_Some.
  unfold load_values_as_dataframe. rewrite stage_run.
  rewrite Hcred, Hbucket, Hobject.
  unfold parse_values, table_of_values, mbind at 1 2 3 4, M_bind, lift.
  destruct (json_load text) as [data|e]; [|done]. simpl.
  destruct (py_getitem0 data ≫= py_copy) as [col_names|e]; [|done]. simpl.
  destruct (py_slice1 data ≫= py_copy) as [records|e]; [|done]. simpl.
  destruct (from_records records col_names) as [frame|e]; [|done].
  unfold os_remove, mbind, M_bind. by rewrite staged_fs.
Qed.

Lemma load_csv_run gcs_bucket filename dtype w text :
  credentials w = true →
  stored w gcs_bucket filename = Some text →
  load_csv_as_dataframe gcs_bucket filename dtype w
  = (read_csv text dtype, staged gcs_bucket filename text w).
Proof.
  intros Hcred (objects & Hbucket & Hobject)%stored_Some.
  unfold load_csv_as_dataframe. rewrite stage_run.
  by rewrite Hcred, Hbucket, Hobject.
Qed.

(** A loader that returned has staged its object. *)
Lemma stage_Ok_inv {A : Type} (k : string → M A) gcs_bucket filename w a w' :
  (storage_Client;;
   bucket ← get_bucket gcs_bucket;
   download_to_filename bucket filename (local_file_path filename);;
   text ← open_read (local_file_path filename);
   k text) w = (Ok a, w') →
  ∃ text, credentials w = true ∧ stored w gcs_bucket filename = Some text.
Proof.
  rewrite stage_run. intros Hrun.
  destruct (credentials w); [|done].
  destruct (gcs w !! gcs_bucket) as [objects|] eqn:Hbucket; [|done].
  destruct (objects !! filename) as [text|] eqn:Hobject; [|done].
  exists text. split; [done|]. apply stored_Some. eauto.
Qed.

(** C6. After a successful values-format load the staging file does not
    exist; after a successful CSV load it exists, and holds the object. *)
Theorem staging_file_lifecycle gcs_bucket filename dtype w :
  (∀ frame w',
     load_values_as_dataframe gcs_bucket filename w = (Ok frame, w') →
     fs w' !! local_file_path filename = None)
  ∧ (∀ frame w',
       load_csv_as_dataframe gcs_bucket filename dtype w = (Ok frame, w') →
       is_Some (fs w' !! local_file_path filename)
       ∧ fs w' !! local_file_path filename = stored w gcs_bucket filename).
Proof.
  split; intros frame w' Hrun.
  - destruct (stage_Ok_inv _ _ _ _ _ _ Hrun) as (text & Hcred & Hstored).
    rewrite (load_values_run _ _ _ _ Hcred Hstored) in Hrun. simpl in Hrun.
    destruct (parse_values text); [|done].
    injection Hrun as _ <-. simpl. apply lookup_delete_eq.
  - destruct (stage_Ok_inv _ _ _ _ _ _ Hrun) as (text & Hcred & Hstored).
    rewrite (load_csv_run _ _ _ _ _ Hcred Hstored) in Hrun.
    injection Hrun as _ <-. rewrite Hstored, staged_fs. eauto.
Qed.

(** C10. When the object was staged and building the table from it fails,
    on the text ([json.load]) or on the parsed value, the loader raises
    that failure and the staging file is still there, holding the object. *)
Theorem failed_parse_keeps_staging_file gcs_bucket filename w text e :
  credentials w = true →
  stored w gcs_bucket filename = Some text →
  json_load text = Raise e
  ∨ (∃ data, json_load text = Ok data ∧ table_of_values data = Raise e) →
  let out := load_values_as_dataframe gcs_bucket filename w in
  out.1 = Raise e
  ∧ fs out.2 !! local_file_path filename = Some text.
Proof.
  intros Hcred Hstored Hfail. simpl.
  rewrite (load_values_run _ _ _ _ Hcred Hstored). simpl.
  assert (parse_values text = Raise e) as ->.
  { unfold parse_values.
    destruct Hfail as [->|(data & -> & Hdata)]; [done|]. done. }
  split; [done|]. apply staged_fs.
Qed.

End Loaders.

(** ** The loaders on the reference libraries *)









(** C5. The values-format object [[["a","b"],[1,2],[3,4]]] loads as the
    table with columns a, b and rows (1,2), (3,4), in that order. *)
Theorem values_document_loads verdict gcs_bucket filename w :
  credentials w = true →
  stored w gcs_bucket filename = Some values_document →
  ∃ f w',
    @load_values_as_dataframe (Reference.library verdict)
      gcs_bucket filename w = (Ok f, w')
    ∧ frame_columns f = ["a"; "b"]
    ∧ frame_rows f = [[PInt 1; PInt 2]; [PInt 3; PInt 4]].
Proof.
  intros Hcred Hstored.
  rewrite (load_values_run _ _ _ _ Hcred Hstored). cbv zeta.
  assert (@parse_values (Reference.library verdict) values_document
          = Ok frame_ab) as -> by (vm_compute; reflexivity).
  eexists _, _. split_and!; reflexivity.
Qed.


(** C8. The CSV object of the lines [a,b], [1,2], [3,4] loads with the
    string ["1"] in row 0 of column a when the hint makes that column a
    string column, and with the integer 1 there without hint. *)
Theorem csv_type_hint verdict gcs_bucket filename w :
  credentials w = true →
  stored w gcs_bucket filename = Some csv_document →
  (∃ f, (@load_csv_as_dataframe (Reference.library verdict) gcs_bucket
           filename (Some [("a", dtype_str)]) w).1 = Ok f
        ∧ frame_cell f 0 "a" = Some (PStr "1"))
  ∧ (∃ f, (@load_csv_as_dataframe (Reference.library verdict) gcs_bucket
             filename None w).1 = Ok f
          ∧ frame_cell f 0 "a" = Some (PInt 1)).
Proof.
  intros Hcred Hstored.
  rewrite !(load_csv_run _ _ _ _ _ Hcred Hstored). simpl.
  split; eexists; (split; [vm_compute; reflexivity|reflexivity]).
Qed.

(** ** The statements at concrete inputs *)

Lemma schema_mismatch_witness :
  let out := @append_dataframe_to_bq reference 0 [("a", "INT64")] "ds" "t"
               None world0 in
  out.1 = Raise SchemaMismatch
  ∧ out.2 = world0
  ∧ (BigqueryClient ∉ new_events world0 out.2)
  ∧ submitted_jobs (new_events world0 out.2) = [].
Proof.
  apply (schema_mismatch_raises_before_any_call (H := reference)
           0 [("a", "INT64")] "ds" "t" None world0 frame_ab).
  - reflexivity.
  - apply (bool_decide_unpack _). vm_compute. exact I.
Defined.

Lemma emitted_schema_witness :
  ∃ j sch,
    submitted_jobs
      (new_events world0
         (@append_dataframe_to_bq reference 0
            [("a", "INT64"); ("b", "INT64")] "ds" "t" None world0).2) = [j]
    ∧ schema (job_config j) = Some sch
    ∧ NoDup (field_name <$> sch)
    ∧ (∀ c, c ∈ field_name <$> sch
            ↔ c ∈ frame_columns frame_ab ∨ c = "ingestion_time")
    ∧ length (filter (λ fld, field_name fld = "ingestion_time") sch) = 1
    ∧ (∀ fld, fld ∈ sch → field_name fld = "ingestion_time" →
              field_type fld = "TIMESTAMP")
    ∧ (∀ fld, fld ∈ sch → field_name fld ≠ "ingestion_time" →
              dict_get (field_name fld) types_ab = Some (field_type fld)).
Proof.
  apply (emitted_schema (H := reference) 0 types_ab "ds" "t" None world0 _
           frame_ab).
  - reflexivity.
  - vm_compute. reflexivity.
Defined.


Lemma append_only_witness :
  let dest := ("ds", "t") in
  let first := @append_dataframe_to_bq reference 0 types_ab "ds" "t" None
                 world0 in
  let other := @append_dataframe_to_bq reference 1 types_ab "ds" "t" None
                 (with_clock later first.2) in
  length (table_rows (bq first.2) dest)
  = length (table_rows (bq world0) dest) + frame_len frame_ab
  ∧ length (table_rows (bq other.2) dest)
    = length (table_rows (bq world0) dest) + 2 * frame_len frame_ab
  ∧ @append_dataframe_to_bq reference 0 types_ab "ds" "t" None
      (with_clock later first.2)
    = (Raise SchemaMismatch, with_clock later first.2).
Proof.
  destruct (append_only (H := reference) 0 types_ab "ds" "t" None world0)
    as (_ & _ & Hone & Htwo & Hsame).
  split_and!.
  - apply (Hone frame_ab); [reflexivity|vm_compute; reflexivity].
  - apply (Htwo frame_ab 1 None later).
    + reflexivity.
    + reflexivity.
    + lia.
    + vm_compute. reflexivity.
    + vm_compute. reflexivity.
  - apply (Hsame frame_ab None later).
    + reflexivity.
    + apply (bool_decide_unpack _). vm_compute. exact I.
    + vm_compute. reflexivity.
Defined.

(** C4, as the claim states it, fails on one table object appended twice:
    the first call succeeds and adds the [ingestion_time] column to the
    object, the second call fails the check, and the table has grown by
    the rows of one batch, not of two. *)
Lemma second_append_of_same_frame_fails :
  let dest := ("ds", "t") in
  let first := @append_dataframe_to_bq reference 0 types_ab "ds" "t" None
                 world0 in
  let second := @append_dataframe_to_bq reference 0 types_ab "ds" "t" None
                  (with_clock later first.2) in
  frames world0 !! 0 = Some frame_ab
  ∧ passes_validation types_ab frame_ab
  ∧ first.1 = Ok ()
  ∧ second.1 = Raise SchemaMismatch
  ∧ length (table_rows (bq second.2) dest)
    = length (table_rows (bq world0) dest) + frame_len frame_ab
  ∧ length (table_rows (bq second.2) dest)
    ≠ length (table_rows (bq world0) dest) + 2 * frame_len frame_ab.
Proof.
  split_and!.
  - reflexivity.
  - apply (bool_decide_unpack _). vm_compute. exact I.
  - vm_compute. reflexivity.
  - vm_compute. reflexivity.
  - vm_compute. reflexivity.
  - vm_compute. discriminate.
Qed.

Lemma values_document_witness :
  ∃ f w',
    @load_values_as_dataframe (Reference.library Reference.accept)
      "bucket" "values.json" world0 = (Ok f, w')
    ∧ frame_columns f = ["a"; "b"]
    ∧ frame_rows f = [[PInt 1; PInt 2]; [PInt 3; PInt 4]].
Proof.
  apply (values_document_loads Reference.accept "bucket" "values.json" world0).
  - reflexivity.
  - vm_compute. reflexivity.
Defined.

Lemma staging_file_witness :
  let values := @load_values_as_dataframe reference "bucket" "values.json"
                  world0 in
  let csv := @load_csv_as_dataframe reference "bucket" "table.csv" None
               world0 in
  fs values.2 !! local_file_path "values.json" = None
  ∧ is_Some (fs csv.2 !! local_file_path "table.csv")
  ∧ fs csv.2 !! local_file_path "table.csv"
    = stored world0 "bucket" "table.csv".
Proof.
  split.
  - apply (proj1 (staging_file_lifecycle (H := reference)
                    "bucket" "values.json" None world0) frame_ab).
    vm_compute. reflexivity.
  - apply (proj2 (staging_file_lifecycle (H := reference)
                    "bucket" "table.csv" None world0) frame_ab).
    vm_compute. reflexivity.
Defined.



Lemma csv_type_hint_witness :
  (∃ f, (@load_csv_as_dataframe (Reference.library Reference.accept) "bucket"
           "table.csv" (Some [("a", dtype_str)]) world0).1 = Ok f
        ∧ frame_cell f 0 "a" = Some (PStr "1"))
  ∧ (∃ f, (@load_csv_as_dataframe (Reference.library Reference.accept)
             "bucket" "table.csv" None world0).1 = Ok f
          ∧ frame_cell f 0 "a" = Some (PInt 1)).
Proof.
  apply (csv_type_hint Reference.accept "bucket" "table.csv" world0).
  - reflexivity.
  - vm_compute. reflexivity.
Defined.

Lemma append_mutates_witness :
  let T' := frame_setitem "ingestion_time" (PFloat (clock world0)) frame_ab in
  let failed := @append_dataframe_to_bq refusing 0 types_ab "ds" "t" None
                  world0 in
  let invalid := @append_dataframe_to_bq refusing 0 [("a", "INT64")] "ds" "t"
                   None world0 in
  failed.1 = Raise (LoadJobError "quota exceeded")
  ∧ frames failed.2 = <[0 := T']> (frames world0)
  ∧ "ingestion_time" ∈ frame_columns T'
  ∧ (∀ i, i < 2 → frame_cell T' i "ingestion_time"
                  = Some (PFloat (clock world0)))
  ∧ invalid.1 = Raise SchemaMismatch
  ∧ invalid.2 = world0.
Proof.
  destruct (proj1 (append_mutates_its_argument (H := refusing)
                     0 types_ab "ds" "t" None world0 frame_ab eq_refl))
    as (Hframes & Hcol & _ & Hcells).
  { apply (bool_decide_unpack _). vm_compute. exact I. }
  destruct (proj2 (append_mutates_its_argument (H := refusing)
                     0 [("a", "INT64")] "ds" "t" None world0 frame_ab eq_refl))
    as (Hexn & Hworld).
  { apply (bool_decide_unpack _). vm_compute. exact I. }
  split_and!; done.
Defined.

Lemma failed_parse_witness :
  let broken := @load_values_as_dataframe reference "bucket" "broken.json"
                  world0 in
  let long := @load_values_as_dataframe reference "bucket" "long.json"
                world0 in
  (broken.1 = Raise JSONDecodeError
   ∧ fs broken.2 !! local_file_path "broken.json" = Some "[[")
  ∧ (long.1 = Raise (Reference.width_error 2 3)
     ∧ fs long.2 !! local_file_path "long.json" = Some long_row_document).
Proof.
  split.
  - apply (failed_parse_keeps_staging_file (H := reference)
             "bucket" "broken.json" world0 "[[" JSONDecodeError).
    + reflexivity.
    + vm_compute. reflexivity.
    + left. vm_compute. reflexivity.
  - apply (failed_parse_keeps_staging_file (H := reference)
             "bucket" "long.json" world0 long_row_document
             (Reference.width_error 2 3)).
    + reflexivity.
    + vm_compute. reflexivity.
    + right. eexists. split; vm_compute; reflexivity.
Defined.

(** * Further properties of the module *)

(** ** Dictionaries and frames, continued *)




Lemma frame_setitem_keeps_NoDup (c : string) (v : pyval) (f : DataFrame) :
  NoDup (frame_columns f) → NoDup (frame_columns (frame_setitem c v f)).
Proof.
  intros Hnd. rewrite frame_setitem_columns. case_bool_decide as Hin; [done|].
  apply NoDup_app. split_and!; [done| |apply NoDup_singleton].
  by intros x Hx ->%list_elem_of_singleton.
Qed.

Lemma map_result_fmap {A B : Type} (f : A → result B) (g : A → B)
    (l : list A) :
  (∀ a, a ∈ l → f a = Ok (g a)) → map_result f l = Ok (g <$> l).
Proof.
  induction l as [|a l IH]; csimpl; intros Hf; [done|].
  rewrite (Hf a) by left. simpl. rewrite IH; [done|].
  intros a' Ha'. apply Hf. by right.
Qed.

(** [create_field] never fails on a key of the dictionary it reads. *)
Lemma create_field_key (columns col_modes : dict string) (col : string) :
  col ∈ dict_keys columns →
  create_field columns col_modes col = Ok (field_of columns col_modes col).
Proof.
  intros [ty Hty]%dict_get_is_Some.
  unfold create_field, field_of, dict_getitem, dict_contains.
  rewrite Hty. simpl. case_bool_decide as Hin.
  - apply dict_get_is_Some in Hin as [mode ->]. done.
  - destruct (dict_get col col_modes) as [mode|] eqn:Hmode; [|done].
    destruct Hin. apply dict_get_is_Some. by rewrite Hmode.
Qed.

Lemma create_fields_Ok (columns col_modes : dict string) :
  map_result (create_field columns col_modes) (dict_keys columns)
  = Ok (field_of columns col_modes <$> dict_keys columns).
Proof. apply map_result_fmap. intros col. apply create_field_key. Qed.

(** With distinct keys, the check passes exactly when the keys are the
    columns in some order. *)
Lemma validation_perm (column_types : dict string) (f : DataFrame) :
  dict_wf column_types →
  passes_validation column_types f
  ↔ dict_keys column_types ≡ₚ frame_columns f.
Proof.
  intros Hwf. split.
  - intros [Hlen Hset]. apply submseteq_length_Permutation; [|lia].
    apply NoDup_submseteq; [done|]. intros x Hx.
    apply (elem_of_list_to_set (C := gset string)). rewrite <-Hset.
    by apply elem_of_list_to_set.
  - intros Hperm. split.
    + by rewrite Hperm.
    + by rewrite Hperm.
Qed.

Section AppendMore.
Context `{Collaborators}.

(** The check is the only source of the mismatch exception. *)
Lemma mismatch_iff_validation
    frame column_types dataset table_name col_modes w T :
  frames w !! frame = Some T →
  (append_dataframe_to_bq frame column_types dataset table_name col_modes w).1
  = Raise SchemaMismatch
  ↔ ¬ passes_validation column_types T.
Proof.
  intros Hframe. rewrite (append_run _ _ _ _ _ _ _ Hframe).
  rewrite create_fields_Ok. unfold to_json_records.
  destruct (decide (passes_validation column_types T)) as [Hval|Hval].
  - rewrite (bool_decide_true _ Hval). split; [|done]. intros Hrun.
    destruct (credentials w); [|done].
    case_bool_decide; [|done].
    simpl in Hrun. by destruct (load_job_verdict _ _).
  - by rewrite (bool_decide_false _ Hval).
Qed.

(** A call whose check passes, with distinct keys and credentials: the
    one job goes out, and the outcome is the warehouse's verdict on it. *)
Lemma append_valid_run frame column_types dataset table_name col_modes w T :
  frames w !! frame = Some T →
  dict_wf column_types →
  passes_validation column_types T →
  credentials w = true →
  ∃ j,
    (append_dataframe_to_bq frame column_types dataset table_name col_modes
       w).1
    = match load_job_verdict (bq w) j with
      | Some detail => Raise (LoadJobError detail)
      | None => Ok ()
      end.
Proof.
  intros Hframe Hwf Hval Hcred.
  rewrite (append_run _ _ _ _ _ _ _ Hframe).
  rewrite (bool_decide_true _ Hval), Hcred, create_fields_Ok.
  unfold to_json_records. rewrite bool_decide_true.
  - cbv zeta.
    match goal with
    | |- context [load_job_verdict (bq w) ?j] =>
        exists j; by destruct (load_job_verdict (bq w) j)
    end.
  - apply frame_setitem_keeps_NoDup.
    apply validation_perm in Hval; [|done]. by rewrite <-Hval.
Qed.

End AppendMore.

(** ** [append_dataframe_to_bq]: the check, the outcomes, what is sent *)

Section AppendProperties.
Context `{Collaborators}.

(** X1. For a mapping with distinct keys, the call raises the mismatch
    exception exactly when the keys are not the columns of the table in
    some order: the order of keys and columns is free, and a table with a
    repeated column label is always refused. *)
Theorem check_accepts_exactly_permutations
    frame column_types dataset table_name col_modes w T :
  frames w !! frame = Some T →
  dict_wf column_types →
  (append_dataframe_to_bq frame column_types dataset table_name col_modes w).1
  = Raise SchemaMismatch
  ↔ ¬ dict_keys column_types ≡ₚ frame_columns T.
Proof.
  intros Hframe Hwf.
  rewrite (mismatch_iff_validation _ _ _ _ _ _ _ Hframe).
  by rewrite validation_perm.
Qed.

(** X2. With distinct keys that are the columns in some order, default
    credentials and a warehouse that accepts the job, the call returns:
    neither the schema construction nor the serialisation of the rows can
    fail. *)
Theorem append_succeeds frame column_types dataset table_name col_modes w T :
  frames w !! frame = Some T →
  dict_wf column_types →
  dict_keys column_types ≡ₚ frame_columns T →
  credentials w = true →
  (∀ j, load_job_verdict (bq w) j = None) →
  (append_dataframe_to_bq frame column_types dataset table_name col_modes w).1
  = Ok ().
Proof.
  intros Hframe Hwf Hperm%validation_perm Hcred Haccept; [|done].
  destruct (append_valid_run frame column_types dataset table_name col_modes
              w T Hframe Hwf Hperm Hcred) as [j ->].
  by rewrite Haccept.
Qed.

(** X3. The call ends in one of four ways: it returns, or it raises the
    mismatch exception, the missing-credentials exception of the client
    constructor, or the failure of the load job.  In particular the lookup
    [columns[col]] of the inner function never raises KeyError. *)
Theorem append_outcomes frame column_types dataset table_name col_modes w T :
  frames w !! frame = Some T →
  dict_wf column_types →
  let r := (append_dataframe_to_bq frame column_types dataset table_name
              col_modes w).1 in
  r = Ok ()
  ∨ r = Raise SchemaMismatch
  ∨ r = Raise DefaultCredentialsError
  ∨ ∃ detail, r = Raise (LoadJobError detail).
Proof.
  intros Hframe Hwf. simpl.
  destruct (decide (passes_validation column_types T)) as [Hval|Hval].
  - destruct (credentials w) eqn:Hcred.
    + destruct (append_valid_run frame column_types dataset table_name
                  col_modes w T Hframe Hwf Hval Hcred) as [j ->].
      destruct (load_job_verdict (bq w) j); eauto.
    + rewrite (append_run _ _ _ _ _ _ _ Hframe).
      rewrite (bool_decide_true _ Hval), Hcred. eauto.
  - right. left. by eapply mismatch_iff_validation.
Qed.

(** The schema of a successful call, spelled out. *)
Lemma append_Ok_schema frame column_types dataset table_name col_modes w w' T :
  frames w !! frame = Some T →
  append_dataframe_to_bq frame column_types dataset table_name col_modes w
  = (Ok (), w') →
  let columns := dict_set "ingestion_time" "TIMESTAMP" column_types in
  ∃ j,
    submitted_jobs (new_events w w') = [j]
    ∧ schema (job_config j)
      = Some (field_of columns (default [] col_modes) <$> dict_keys columns).
Proof.
  intros Hframe Hrun columns.
  destruct (append_Ok_inv _ _ _ _ _ _ _ _ Hframe Hrun)
    as (sch & rows & _ & Hsch & _ & Hev & _ & _).
  rewrite create_fields_Ok in Hsch. injection Hsch as <-.
  eexists. split; [by rewrite Hev|done].
Qed.

(** X4. The fields of the schema of a successful call come in the order of
    the mapping's keys; [ingestion_time] is the last field, unless the
    mapping has that key, in which case it stays where the mapping has it. *)
Theorem schema_order frame column_types dataset table_name col_modes w w' T :
  frames w !! frame = Some T →
  append_dataframe_to_bq frame column_types dataset table_name col_modes w
  = (Ok (), w') →
  ∃ j sch,
    submitted_jobs (new_events w w') = [j]
    ∧ schema (job_config j) = Some sch
    ∧ field_name <$> sch
      = if bool_decide ("ingestion_time" ∈ dict_keys column_types)
        then dict_keys column_types
        else dict_keys column_types ++ ["ingestion_time"].
Proof.
  intros Hframe Hrun.
  destruct (append_Ok_schema _ _ _ _ _ _ _ _ Hframe Hrun) as (j & Hj & Hsch).
  eexists j, _. split_and!; [done|done|].
  rewrite <-(dict_keys_set _ "TIMESTAMP"). apply list_eq. intros i.
  rewrite !list_lookup_fmap. by destruct (_ !! i).
Qed.

(** X5. The mode of every field of the schema of a successful call is the
    one [col_modes] gives for its name, and NULLABLE when [col_modes] has
    no entry for it; without [col_modes] every field is NULLABLE. *)
Theorem schema_modes frame column_types dataset table_name col_modes w w' T :
  frames w !! frame = Some T →
  append_dataframe_to_bq frame column_types dataset table_name col_modes w
  = (Ok (), w') →
  ∃ j sch,
    submitted_jobs (new_events w w') = [j]
    ∧ schema (job_config j) = Some sch
    ∧ (∀ fld, fld ∈ sch →
         field_mode fld
         = default "NULLABLE"
             (dict_get (field_name fld) (default [] col_modes)))
    ∧ (col_modes = None → ∀ fld, fld ∈ sch → field_mode fld = "NULLABLE").
Proof.
  intros Hframe Hrun.
  destruct (append_Ok_schema _ _ _ _ _ _ _ _ Hframe Hrun) as (j & Hj & Hsch).
  eexists j, _. split_and!; [done|done| |].
  - by intros fld (col & -> & _)%list_elem_of_fmap.
  - by intros -> fld (col & -> & _)%list_elem_of_fmap.
Qed.


(** X7. Whatever its outcome, the call leaves the credentials, the object
    store, the local files and the clock as they were, touches no table
    object other than its argument and no warehouse table other than its
    destination. *)
Theorem append_frame_effect frame column_types dataset table_name col_modes w :
  let out := append_dataframe_to_bq frame column_types dataset table_name
               col_modes w in
  credentials out.2 = credentials w
  ∧ gcs out.2 = gcs w
  ∧ fs out.2 = fs w
  ∧ clock out.2 = clock w
  ∧ (∀ l, l ≠ frame → frames out.2 !! l = frames w !! l)
  ∧ (∀ dest, dest ≠ (dataset, table_name) → bq out.2 !! dest = bq w !! dest).
Proof.
  simpl. destruct (frames w !! frame) as [T|] eqn:Hframe.
  - rewrite (append_run _ _ _ _ _ _ _ Hframe).
    case_bool_decide as Hval; [|done].
    assert (∀ l, l ≠ frame →
              <[frame := frame_setitem "ingestion_time" (PFloat (clock w)) T]>
                (frames w) !! l = frames w !! l) as Hother.
    { intros l Hl. by rewrite lookup_insert_ne. }
    destruct (credentials w) eqn:Hcred; [|by simpl; rewrite Hcred].
    destruct (map_result _ _); [|by simpl; rewrite Hcred].
    destruct (to_json_records _); [|by simpl; rewrite Hcred].
    simpl. destruct (load_job_verdict _ _); simpl; rewrite Hcred; [done|].
    split_and!; try done.
    intros dest Hdest. by rewrite lookup_insert_ne.
  - by rewrite append_dangling.
Qed.

(** X8. A call that raises, whatever it raises, leaves every warehouse
    table as it was. *)
Theorem failed_append_keeps_warehouse
    frame column_types dataset table_name col_modes w e :
  let out := append_dataframe_to_bq frame column_types dataset table_name
               col_modes w in
  out.1 = Raise e → bq out.2 = bq w.
Proof.
  simpl. intros Hraise.
  destruct (append_bq frame column_types dataset table_name col_modes w)
    as [Hbq|(j & Hok & _)]; [done|].
  simpl in Hok. congruence.
Qed.

(** X9. After a successful call, a second call on the same table object
    with the same mapping fails the check exactly when the mapping has no
    [ingestion_time] key. *)
Theorem repeated_append_on_same_object
    frame column_types dataset table_name col_modes w w1 T col_modes2 now :
  frames w !! frame = Some T →
  append_dataframe_to_bq frame column_types dataset table_name col_modes w
  = (Ok (), w1) →
  (append_dataframe_to_bq frame column_types dataset table_name col_modes2
     (with_clock now w1)).1 = Raise SchemaMismatch
  ↔ "ingestion_time" ∉ dict_keys column_types.
Proof.
  intros Hframe Hrun.
  destruct (append_Ok_inv _ _ _ _ _ _ _ _ Hframe Hrun)
    as (_ & _ & Hval & _ & _ & _ & Hfr & _).
  assert (frames (with_clock now w1) !! frame
          = Some (frame_setitem "ingestion_time" (PFloat (clock w)) T))
    as Hframe'.
  { simpl. by rewrite Hfr, lookup_insert_eq. }
  rewrite (mismatch_iff_validation _ _ _ _ _ _ _ Hframe').
  unfold passes_validation at 1. rewrite frame_setitem_columns.
  pose proof (validation_keys _ _ Hval "ingestion_time") as Hkey.
  case_bool_decide as Hin.
  - split; [intros Hnot; by destruct Hnot|]. intros Hfresh.
    destruct Hfresh. by apply Hkey.
  - split; [by rewrite Hkey|]. intros _ [Hlen _].
    destruct Hval as [Hlen' _]. rewrite length_app in Hlen. simpl in Hlen. lia.
Qed.

End AppendProperties.

(** ** The loaders: staging paths, failures, what they leave alone *)

Lemma local_file_path_eq (a b : string) :
  local_file_path a = local_file_path b → a = b.
Proof. unfold local_file_path. cbv [String.append]. by intros [= ->]. Qed.

(** X10. Two object names have the same staging path only when they are
    the same name. *)
Theorem local_file_path_injective (a b : string) :
  local_file_path a = local_file_path b ↔ a = b.
Proof. split; [apply local_file_path_eq|by intros ->]. Qed.

Lemma same_but_staging_file_refl (name : string) (w : World) :
  same_but_staging_file name w w.
Proof. by repeat split. Qed.

Lemma same_but_staging_file_opened (bucket name : string) (w : World) :
  same_but_staging_file name w (opened bucket name w).
Proof.
  repeat split. intros path Hpath. simpl. by rewrite lookup_insert_ne.
Qed.

Lemma same_but_staging_file_staged (bucket name text : string) (w : World) :
  same_but_staging_file name w (staged bucket name text w).
Proof.
  repeat split. intros path Hpath. simpl. by rewrite !lookup_insert_ne.
Qed.

Section LoaderProperties.
Context `{Collaborators}.

(** X11. Whatever their outcome, the two loaders leave the credentials,
    the object store, the clock, the table objects and the warehouse as
    they were, and no local file is created, changed or removed other than
    the staging file of the object they load; the staging file of an
    object of another name is left alone. *)
Theorem loaders_frame_effect gcs_bucket filename dtype w :
  let values := load_values_as_dataframe gcs_bucket filename w in
  let csv := load_csv_as_dataframe gcs_bucket filename dtype w in
  same_but_staging_file filename w values.2
  ∧ same_but_staging_file filename w csv.2
  ∧ (∀ other, other ≠ filename →
       fs values.2 !! local_file_path other = fs w !! local_file_path other
       ∧ fs csv.2 !! local_file_path other = fs w !! local_file_path other).
Proof.
  simpl.
  assert (same_but_staging_file filename w
            (load_values_as_dataframe gcs_bucket filename w).2
          ∧ same_but_staging_file filename w
              (load_csv_as_dataframe gcs_bucket filename dtype w).2)
    as [Hvalues Hcsv].
  { destruct (credentials w) eqn:Hcred.
    - destruct (stored w gcs_bucket filename) as [text|] eqn:Hstored.
      + rewrite (load_values_run _ _ _ _ Hcred Hstored).
        rewrite (load_csv_run _ _ _ _ _ Hcred Hstored). cbv zeta.
        split; [|apply same_but_staging_file_staged].
        destruct (parse_values text); [|apply same_but_staging_file_staged].
        repeat split. intros path Hpath. simpl.
        by rewrite lookup_delete_ne, !lookup_insert_ne.
      + unfold load_values_as_dataframe, load_csv_as_dataframe.
        rewrite !stage_run, Hcred. unfold stored in Hstored.
        destruct (gcs w !! gcs_bucket) as [objects|]; [|by repeat split].
        simpl in Hstored. rewrite Hstored.
        split; apply same_but_staging_file_opened.
    - unfold load_values_as_dataframe, load_csv_as_dataframe.
      rewrite !stage_run, Hcred. split; apply same_but_staging_file_refl. }
  split_and!; [done|done|]. intros other Hother.
  destruct Hvalues as (_ & _ & _ & _ & _ & Hvalues).
  destruct Hcsv as (_ & _ & _ & _ & _ & Hcsv).
  split; [apply Hvalues|apply Hcsv]; by intros ?%local_file_path_eq.
Qed.

(** X12. The CSV loader returns what [read_csv] returns on the staged
    text, a table or a failure, and in both cases leaves the staging file
    in place. *)
Theorem csv_loader_passes_result_on gcs_bucket filename dtype w text :
  credentials w = true →
  stored w gcs_bucket filename = Some text →
  let out := load_csv_as_dataframe gcs_bucket filename dtype w in
  out.1 = read_csv text dtype
  ∧ fs out.2 !! local_file_path filename = Some text.
Proof.
  intros Hcred Hstored. simpl.
  rewrite (load_csv_run _ _ _ _ _ Hcred Hstored).
  split; [done|apply staged_fs].
Qed.

Lemma malformed_table (data : pyval) (e : exn) :
  malformed_values data e → table_of_values data = Raise e.
Proof.
  unfold table_of_values.
  destruct 1 as [|h recs Hh| | | |x Hx]; try done.
  - by destruct h.
  - by destruct x.
Qed.

Lemma well_formed_table (data : pyval) :
  (∀ e, ¬ malformed_values data e) →
  ∃ h recs, data = PList (h :: recs)
            ∧ has_copy h = true
            ∧ table_of_values data = from_records (PList recs) h.
Proof.
  intros Hwell.
  destruct data as [| | | |s|l|d];
    try (by destruct (Hwell TypeError); apply malformed_scalar).
  - destruct s.
    + destruct (Hwell IndexError). constructor.
    + destruct (Hwell AttributeError). constructor.
  - destruct l as [|h recs].
    + destruct (Hwell IndexError). constructor.
    + destruct (has_copy h) eqn:Hh.
      * exists h, recs. split_and!; [done|done|].
        unfold table_of_values. simpl. rewrite drop_0. by destruct h.
      * destruct (Hwell AttributeError). by constructor.
  - destruct (Hwell KeyError). constructor.
Qed.

(** X13. For a staged document that [json.load] parses: when the parsed
    value is not a list that starts with a list or a dictionary, the loader
    raises IndexError (empty list or text), KeyError (object), TypeError
    (number, boolean, null) or AttributeError (text, or a header without
    [copy]) before any table is built, and keeps the staging file; in
    every other case the outcome is that of [from_records] on the rest of
    the list, with the first element as the columns. *)
Theorem values_shape gcs_bucket filename w text data :
  credentials w = true →
  stored w gcs_bucket filename = Some text →
  json_load text = Ok data →
  let out := load_values_as_dataframe gcs_bucket filename w in
  (∀ e, malformed_values data e →
        out.1 = Raise e
        ∧ fs out.2 !! local_file_path filename = Some text)
  ∧ ((∀ e, ¬ malformed_values data e) →
     ∃ h recs, data = PList (h :: recs)
               ∧ out.1 = from_records (PList recs) h).
Proof.
  intros Hcred Hstored Hdata. simpl.
  rewrite (load_values_run _ _ _ _ Hcred Hstored). cbv zeta.
  unfold parse_values. rewrite Hdata. simpl. split.
  - intros e ->%malformed_table. split; [done|apply staged_fs].
  - intros (h & recs & -> & _ & ->)%well_formed_table.
    exists h, recs. split; [done|]. by destruct (from_records _ _).
Qed.

(** X14. With credentials and no such bucket, both loaders raise NotFound
    after the bucket request: no download is requested and no local file
    is touched. *)
Theorem missing_bucket gcs_bucket filename dtype w :
  credentials w = true →
  gcs w !! gcs_bucket = None →
  let values := load_values_as_dataframe gcs_bucket filename w in
  let csv := load_csv_as_dataframe gcs_bucket filename dtype w in
  values.1 = Raise NotFound
  ∧ csv.1 = Raise NotFound
  ∧ fs values.2 = fs w
  ∧ fs csv.2 = fs w
  ∧ new_events w values.2 = [StorageClient; GetBucket gcs_bucket]
  ∧ new_events w csv.2 = [StorageClient; GetBucket gcs_bucket].
Proof.
  intros Hcred Hbucket. simpl.
  unfold load_values_as_dataframe, load_csv_as_dataframe.
  rewrite !stage_run, Hcred, Hbucket. simpl.
  split_and!; try done; by apply new_events_two.
Qed.

End LoaderProperties.

(** ** The further properties at concrete inputs *)

Lemma check_accepts_witness :
  (@append_dataframe_to_bq reference 0 types_ba "ds" "t" None world0).1
  = Raise SchemaMismatch
  ↔ ¬ dict_keys types_ba ≡ₚ frame_columns frame_ab.
Proof.
  apply (check_accepts_exactly_permutations (H := reference)
           0 types_ba "ds" "t" None world0 frame_ab).
  - reflexivity.
  - apply (bool_decide_unpack _). vm_compute. exact I.
Defined.

Lemma append_succeeds_witness :
  (@append_dataframe_to_bq reference 0 types_ba "ds" "t" None world0).1
  = Ok ().
Proof.
  apply (append_succeeds (H := reference) 0 types_ba "ds" "t" None world0
           frame_ab).
  - reflexivity.
  - apply (bool_decide_unpack _). vm_compute. exact I.
  - simpl. apply perm_swap.
  - reflexivity.
  - intros j. reflexivity.
Defined.

Lemma append_outcomes_witness :
  let r := (@append_dataframe_to_bq refusing 0 types_ab "ds" "t" None
              world0).1 in
  r = Ok ()
  ∨ r = Raise SchemaMismatch
  ∨ r = Raise DefaultCredentialsError
  ∨ ∃ detail, r = Raise (LoadJobError detail).
Proof.
  apply (append_outcomes (H := refusing) 0 types_ab "ds" "t" None world0
           frame_ab).
  - reflexivity.
  - apply (bool_decide_unpack _). vm_compute. exact I.
Defined.

Lemma schema_order_witness :
  ∃ j sch,
    submitted_jobs
      (new_events world0
         (@append_dataframe_to_bq reference 0 types_ba "ds" "t" None
            world0).2) = [j]
    ∧ schema (job_config j) = Some sch
    ∧ field_name <$> sch
      = if bool_decide ("ingestion_time" ∈ dict_keys types_ba)
        then dict_keys types_ba
        else dict_keys types_ba ++ ["ingestion_time"].
Proof.
  apply (schema_order (H := reference) 0 types_ba "ds" "t" None world0 _
           frame_ab).
  - reflexivity.
  - vm_compute. reflexivity.
Defined.

Lemma schema_modes_witness :
  (∃ j sch,
     submitted_jobs
       (new_events world0
          (@append_dataframe_to_bq reference 0 types_ab "ds" "t"
             (Some [("a", "REQUIRED")]) world0).2) = [j]
     ∧ schema (job_config j) = Some sch
     ∧ ∀ fld, fld ∈ sch →
         field_mode fld
         = default "NULLABLE"
             (dict_get (field_name fld) [("a", "REQUIRED")]))
  ∧ (∃ j sch,
       submitted_jobs
         (new_events world0
            (@append_dataframe_to_bq reference 0 types_ab "ds" "t" None
               world0).2) = [j]
       ∧ schema (job_config j) = Some sch
       ∧ ∀ fld, fld ∈ sch → field_mode fld = "NULLABLE").
Proof.
  split.
  - destruct (schema_modes (H := reference) 0 types_ab "ds" "t"
                (Some [("a", "REQUIRED")]) world0
                (@append_dataframe_to_bq reference 0 types_ab "ds" "t"
                   (Some [("a", "REQUIRED")]) world0).2 frame_ab)
      as (j & sch & Hj & Hsch & Hmodes & _).
    + reflexivity.
    + vm_compute. reflexivity.
    + by exists j, sch.
  - destruct (schema_modes (H := reference) 0 types_ab "ds" "t" None world0
                (@append_dataframe_to_bq reference 0 types_ab "ds" "t" None
                   world0).2 frame_ab)
      as (j & sch & Hj & Hsch & _ & Hnull).
    + reflexivity.
    + vm_compute. reflexivity.
    + exists j, sch. split_and!; [done|done|]. by apply Hnull.
Defined.


Lemma append_frame_effect_witness :
  let out := @append_dataframe_to_bq reference 0 types_ab "ds" "t" None
               world0 in
  credentials out.2 = credentials world0
  ∧ gcs out.2 = gcs world0
  ∧ fs out.2 = fs world0
  ∧ clock out.2 = clock world0
  ∧ (∀ l, l ≠ 0 → frames out.2 !! l = frames world0 !! l)
  ∧ (∀ dest, dest ≠ ("ds", "t") → bq out.2 !! dest = bq world0 !! dest).
Proof.
  apply (append_frame_effect (H := reference) 0 types_ab "ds" "t" None world0).
Defined.

Lemma failed_append_witness :
  bq (@append_dataframe_to_bq refusing 0 types_ab "ds" "t" None world0).2
  = bq world0.
Proof.
  apply (failed_append_keeps_warehouse (H := refusing) 0 types_ab "ds" "t"
           None world0 (LoadJobError "quota exceeded")).
  vm_compute. reflexivity.
Defined.

Lemma repeated_append_witness :
  (@append_dataframe_to_bq reference 0 types_ab "ds" "t" None
     (with_clock later
        (@append_dataframe_to_bq reference 0 types_ab "ds" "t" None
           world0).2)).1 = Raise SchemaMismatch
  ↔ "ingestion_time" ∉ dict_keys types_ab.
Proof.
  apply (repeated_append_on_same_object (H := reference) 0 types_ab "ds" "t"
           None world0 _ frame_ab None later).
  - reflexivity.
  - vm_compute. reflexivity.
Defined.

Lemma local_file_path_witness :
  local_file_path "a.csv" = local_file_path "b.csv" ↔ "a.csv" = "b.csv".
Proof. apply (local_file_path_injective "a.csv" "b.csv"). Defined.

Lemma loaders_frame_effect_witness :
  let values := @load_values_as_dataframe reference "bucket" "number.json"
                  world1 in
  let csv := @load_csv_as_dataframe reference "bucket" "number.json" None
               world1 in
  same_but_staging_file "number.json" world1 values.2
  ∧ same_but_staging_file "number.json" world1 csv.2
  ∧ fs values.2 !! local_file_path "kept.csv" = Some "x"
  ∧ fs csv.2 !! local_file_path "kept.csv" = Some "x".
Proof.
  destruct (loaders_frame_effect (H := reference) "bucket" "number.json" None
              world1) as (Hvalues & Hcsv & Hother).
  split_and!; [done|done| |]; apply (Hother "kept.csv"); discriminate.
Defined.

Lemma csv_loader_witness :
  let out := @load_csv_as_dataframe reference "bucket" "number.json" None
               world1 in
  out.1 = @read_csv reference "7" None
  ∧ fs out.2 !! local_file_path "number.json" = Some "7".
Proof.
  apply (csv_loader_passes_result_on (H := reference) "bucket" "number.json"
           None world1 "7").
  - reflexivity.
  - vm_compute. reflexivity.
Defined.

Lemma values_shape_witness :
  let empty := @load_values_as_dataframe reference "bucket" "empty.json"
                 world1 in
  let values := @load_values_as_dataframe reference "bucket" "values.json"
                  world0 in
  (empty.1 = Raise IndexError
   ∧ fs empty.2 !! local_file_path "empty.json" = Some "[]")
  ∧ ∃ h recs,
      PList [PList [PStr "a"; PStr "b"]; PList [PInt 1; PInt 2];
             PList [PInt 3; PInt 4]] = PList (h :: recs)
      ∧ values.1 = @from_records reference (PList recs) h.
Proof.
  split.
  - apply (proj1 (values_shape (H := reference) "bucket" "empty.json" world1
                    "[]" (PList []) eq_refl eq_refl eq_refl)).
    constructor.
  - apply (proj2 (values_shape (H := reference) "bucket" "values.json" world0
                    values_document _ eq_refl eq_refl eq_refl)).
    intros e Hmal. inversion Hmal; discriminate.
Defined.

Lemma missing_bucket_witness :
  let values := @load_values_as_dataframe reference "nowhere" "values.json"
                  world0 in
  let csv := @load_csv_as_dataframe reference "nowhere" "values.json" None
               world0 in
  values.1 = Raise NotFound
  ∧ csv.1 = Raise NotFound
  ∧ fs values.2 = fs world0
  ∧ fs csv.2 = fs world0
  ∧ new_events world0 values.2 = [StorageClient; GetBucket "nowhere"]
  ∧ new_events world0 csv.2 = [StorageClient; GetBucket "nowhere"].
Proof.
  apply (missing_bucket (H := reference) "nowhere" "values.json" None world0).
  - reflexivity.
  - reflexivity.
Defined.
